(** * RS_MiTienda: the marketplace handlers of main.py over the tables of models.py

    A shallow embedding of the FastAPI application: the three tables of
    models.py as lists of rows (in insertion order, which is the order a full
    scan returns), the process-wide [sessions] dict as a finite map, the
    directory static/images as a finite map from file name to contents, and
    every route handler of main.py as a function from the world to a response
    and a new world. *)

From Stdlib Require Import ZArith List String Ascii Lia Permutation Sorted.
From Stdlib Require Import Floats.PrimFloat.
From stdpp Require Import gmap strings list pretty.

Local Open Scope string_scope.
Local Open Scope Z_scope.

(** ** models.py *)

(** [class User(Base)]: columns id, username, email, hashed_password,
    whatsapp. *)
Module User.
Record t : Type := mk {
  id : Z;
  username : string;
  email : string;
  hashed_password : string;
  whatsapp : string
}.
End User.

(** [class Product(Base)]: price is a Float column, stock an Integer one. *)
Module Product.
Record t : Type := mk {
  id : Z;
  name : string;
  description : string;
  price : float;
  stock : Z;
  image : string;
  owner_id : Z
}.
End Product.

(** [class Rating(Base)]: a row says that user_id rated product_id. *)
Module Rating.
Record t : Type := mk {
  id : Z;
  user_id : Z;
  product_id : Z
}.
End Rating.

(** ** The store behind [db: Session]

    database.py (the engine and the session factory) is not part of the
    sources; the store is modelled from what models.py declares: integer
    primary keys, the unique columns of users, the unique constraint
    [_user_product_uc] of ratings, [nullable=False], and relationships
    declared without any cascade option. *)
Record Store : Type := mkStore {
  users : list User.t;
  products : list Product.t;
  ratings : list Rating.t
}.

(** Exceptions that main.py raises or lets through. *)
Inductive Exception : Type :=
| IntegrityError (constraint : string)
| OverflowError (msg : string)
| ValueError (msg : string)
| FileNotFoundError (filename : string)
| NotADirectoryError (filename : string)
| OSError (strerror : string).

(** What an Integer column holds.  The engine is configured in database.py;
    it is taken to be SQLite, whose INTEGER is an 8-byte signed integer: a
    Python int outside that range makes the statement, and so the commit,
    raise.  Every SQL engine bounds the column; nothing proved below depends
    on the width. *)
Definition integer_column (z : Z) : bool :=
  (- 2 ^ 63 <=? z) && (z <? 2 ^ 63).

(** A fresh integer primary key: one more than the largest key in use. *)
Definition next_id (ids : list Z) : Z := 1 + fold_right Z.max 0 ids.

(** [db.query(M).filter(c).first()] *)
Definition first {A : Type} (c : A -> bool) (rows : list A) : option A :=
  List.find c rows.

(** [db.add(user); db.commit(); db.refresh(user)]: username and email are
    [unique=True]. *)
Definition add_user (username email hashed_password whatsapp : string)
    (s : Store) : Exception + (User.t * Store) :=
  if existsb (fun u => String.eqb (User.username u) username) (users s)
  then inl (IntegrityError "users.username")
  else if existsb (fun u => String.eqb (User.email u) email) (users s)
  then inl (IntegrityError "users.email")
  else
    let user := User.mk (next_id (map User.id (users s)))
                        username email hashed_password whatsapp in
    inr (user, mkStore (users s ++ [user]) (products s) (ratings s)).

(** [db.add(product); db.commit(); db.refresh(product)]: products has no
    unique column besides its key; stock goes into an Integer column. *)
Definition add_product_row (name description : string) (price : float)
    (stock : Z) (image : string) (owner_id : Z)
    (s : Store) : Exception + (Product.t * Store) :=
  if integer_column stock then
    let product := Product.mk (next_id (map Product.id (products s)))
                              name description price stock image owner_id in
    inr (product, mkStore (users s) (products s ++ [product]) (ratings s))
  else inl (OverflowError "Python int too large to convert to SQLite INTEGER").

(** [db.add(rating); db.commit(); db.refresh(rating)]: the pair
    (user_id, product_id) is under [UniqueConstraint _user_product_uc]. *)
Definition add_rating (user_id product_id : Z)
    (s : Store) : Exception + (Rating.t * Store) :=
  if existsb (fun r => (Rating.user_id r =? user_id)
                       && (Rating.product_id r =? product_id)) (ratings s)
  then inl (IntegrityError "_user_product_uc")
  else
    let rating := Rating.mk (next_id (map Rating.id (ratings s)))
                            user_id product_id in
    inr (rating, mkStore (users s) (products s) (ratings s ++ [rating])).

(** [product.ratings]: the rows of ratings that reference the product. *)
Definition product_ratings (product_id : Z) (s : Store) : list Rating.t :=
  List.filter (fun r => Rating.product_id r =? product_id) (ratings s).

(** [db.commit()] after attribute assignments on a loaded product: the row
    with the product's key is replaced, unless the new stock does not fit the
    Integer column. *)
Definition update_product (product : Product.t)
    (s : Store) : Exception + Store :=
  if integer_column (Product.stock product) then
    inr (mkStore (users s)
                 (map (fun q => if Product.id q =? Product.id product
                                then product else q) (products s))
                 (ratings s))
  else inl (OverflowError "Python int too large to convert to SQLite INTEGER").

(** [db.delete(product); db.commit()].  [Product.ratings] is declared as
    [relationship("Rating", back_populates="product")], without a delete
    cascade: the unit of work de-associates the product's ratings by setting
    their product_id to NULL before it deletes the product row.  The column
    is [nullable=False], so with at least one rating the flush raises and the
    transaction is rolled back. *)
Definition delete_product_row (product : Product.t)
    (s : Store) : Exception + Store :=
  match product_ratings (Product.id product) s with
  | [] =>
      inr (mkStore (users s)
                   (List.filter
                      (fun q => negb (Product.id q =? Product.id product))
                           (products s))
                   (ratings s))
  | _ :: _ => inl (IntegrityError "ratings.product_id")
  end.

(** ** The world of a request *)

(** The store, the module-level [sessions = {}] and the files under
    static/images. *)
Record World : Type := mkWorld {
  db : Store;
  sessions : gmap string Z;
  static_images : gmap string (list Byte.byte)
}.

Definition empty_store : Store := mkStore [] [] [].
Definition empty_world : World := mkWorld empty_store ∅ ∅.

(** An uploaded file: its file name (possibly absent or empty) and bytes. *)
Record UploadFile : Type := mkUpload {
  filename : option string;
  file : list Byte.byte
}.

(** Truth value of an optional string: None and the empty string are false. *)
Definition truthy (s : option string) : bool :=
  match s with
  | Some (String _ _) => true
  | _ => false
  end.

(** ** Writing an image file

    [with open(os.path.join("static", "images", name), "wb") as buffer:
    shutil.copyfileobj(image.file, buffer)].  The handlers create files in
    static/images and never a directory below it, so a name with a slash
    points into a directory that does not exist (or through a file, when its
    first component is the name of one).  A NUL character is refused by
    [open] itself; a path of 4096 bytes or more and a component of more than
    255 bytes are refused by the file system. *)
Fixpoint has_char (c : ascii) (s : string) : bool :=
  match s with
  | EmptyString => false
  | String c' s' => Ascii.eqb c c' || has_char c s'
  end.

Fixpoint first_component (s : string) : string :=
  match s with
  | EmptyString => EmptyString
  | String c s' =>
      if Ascii.eqb c "/" then EmptyString else String c (first_component s')
  end.

Definition open_wb (name : string) (bytes : list Byte.byte)
    (images : gmap string (list Byte.byte))
    : Exception + gmap string (list Byte.byte) :=
  if has_char "000" name then inl (ValueError "embedded null byte")
  else if (4095 <? 14 + Z.of_nat (String.length name))
          || (255 <? Z.of_nat (String.length (first_component name)))
  then inl (OSError "File name too long")
  else if has_char "/" name then
    match images !! first_component name with
    | Some _ => inl (NotADirectoryError name)
    | None => inl (FileNotFoundError name)
    end
  else inr (<[name := bytes]> images).

Global Arguments open_wb : simpl never.
Global Arguments integer_column : simpl never.

(** ** Responses *)

(** The templates and the context each is rendered with. *)
Inductive Page : Type :=
| register_html (msg : option string)
| login_html (msg : option string)
| index_html (products_with_ratings : list (Product.t * nat))
             (current_user : option User.t)
| add_product_html (current_user : option User.t) (msg : option string)
| product_detail_html (product : Product.t) (rating_count : nat)
                      (user_has_rated : bool) (current_user : option User.t)
| edit_product_html (product : Product.t) (current_user : option User.t)
| user_detail_html (user : User.t) (current_user : option User.t).

Inductive Cookie : Type :=
| no_cookie
| set_cookie (key value : string)
| delete_cookie (key : string).

(** What a handler hands back: a rendered template, a 302 redirect, a raised
    [HTTPException], or an exception nobody catches (a 500 for the client). *)
Inductive Response : Type :=
| TemplateResponse (page : Page)
| RedirectResponse (url : string) (cookie : Cookie)
| HTTPException (status_code : Z) (detail : string)
| Uncaught (e : Exception).

(** ** get_current_user *)

Definition get_current_user (session_token : option string)
    (w : World) : option User.t :=
  match session_token with
  | Some token =>
      if truthy session_token then
        match sessions w !! token with
        | Some user_id =>
            first (fun u => User.id u =? user_id) (users (db w))
        | None => None
        end
      else None
  | None => None
  end.

(** ** POST /rate_product/{product_id} *)

(** Lines 286-300: the checks, which only read. *)
Inductive RateCheck : Type :=
| rate_rejected (r : Response)
| rate_proceed (user_id product_id : Z).

Definition rate_product_check (product_id : Z)
    (current_user : option User.t) (s : Store) : RateCheck :=
  match current_user with
  | None =>
      rate_rejected
        (HTTPException 401 "Debes iniciar sesi√≥n para puntuar un producto")
  | Some user =>
      match first (fun p => Product.id p =? product_id) (products s) with
      | None => rate_rejected (HTTPException 404 "Producto no encontrado")
      | Some _ =>
          match first (fun r => (Rating.user_id r =? User.id user)
                                && (Rating.product_id r =? product_id))
                      (ratings s) with
          | Some _ =>
              rate_rejected
                (HTTPException 400 "Ya has puntuado este producto")
          | None => rate_proceed (User.id user) product_id
          end
      end
  end.

(** Lines 302-307: the insert and the redirect.  Nothing catches what the
    commit raises. *)
Definition rate_product_insert (user_id product_id : Z)
    (w : World) : Response * World :=
  match add_rating user_id product_id (db w) with
  | inl e => (Uncaught e, w)
  | inr (_, s') =>
      (RedirectResponse ("/product/" +:+ pretty product_id) no_cookie,
       mkWorld s' (sessions w) (static_images w))
  end.

Definition rate_product (product_id : Z) (current_user : option User.t)
    (w : World) : Response * World :=
  match rate_product_check product_id current_user (db w) with
  | rate_rejected r => (r, w)
  | rate_proceed user_id pid => rate_product_insert user_id pid w
  end.

(** [len(product.ratings)] *)
Definition rating_count (product_id : Z) (s : Store) : nat :=
  length (product_ratings product_id s).

(** ** uuid.uuid4() and str() of it

    [uuid4] takes 16 random bytes and stamps the version and variant bits;
    [str] prints 32 lower-case hexadecimal digits in groups of 8-4-4-4-12.
    The random bytes are an input of the handlers that draw an identifier. *)
Definition hexdigit (n : N) : ascii :=
  match (n mod 16)%N with
  | 0%N => "0" | 1%N => "1" | 2%N => "2" | 3%N => "3"
  | 4%N => "4" | 5%N => "5" | 6%N => "6" | 7%N => "7"
  | 8%N => "8" | 9%N => "9" | 10%N => "a" | 11%N => "b"
  | 12%N => "c" | 13%N => "d" | 14%N => "e" | _ => "f"
  end%char.

Fixpoint hex (len : nat) (n : N) (rest : string) : string :=
  match len with
  | O => rest
  | S len' => hex len' (n / 16)%N (String (hexdigit n) rest)
  end.

Definition uuid4 (random : N) : N :=
  let int := (random mod 2 ^ 128)%N in
  let int := N.lor (N.ldiff int (N.shiftl 0xc000 48)) (N.shiftl 0x8000 48) in
  N.lor (N.ldiff int (N.shiftl 0xf000 64)) (N.shiftl 4 76).

Definition str_uuid (int : N) : string :=
  let dash := String "-"%char in
  hex 8 (N.shiftr int 96)
    (dash (hex 4 (N.shiftr int 80)
      (dash (hex 4 (N.shiftr int 64)
        (dash (hex 4 (N.shiftr int 48)
          (dash (hex 12 int "")))))))).

(** [session_token = str(uuid.uuid4()); sessions[session_token] = user.id]
    and the redirect that sets the cookie (lines 63-67 and 79-83). *)
Definition open_session (user : User.t) (random : N) (s : Store)
    (w : World) : Response * World :=
  let session_token := str_uuid (uuid4 random) in
  (RedirectResponse "/" (set_cookie "session_token" session_token),
   mkWorld s (<[session_token := User.id user]> (sessions w))
           (static_images w)).

(** ** list.sort(key=..., reverse=True)

    Python's sort is stable, also with [reverse=True]: elements with equal
    keys keep their order.  Modelled as an insertion sort that walks past
    strictly larger keys only. *)
Fixpoint insert_reverse {A : Type} (key : A -> nat) (x : A)
    (l : list A) : list A :=
  match l with
  | [] => [x]
  | y :: l' =>
      if (key x <? key y)%nat then y :: insert_reverse key x l' else x :: l
  end.

Definition sort_reverse {A : Type} (key : A -> nat) (l : list A) : list A :=
  fold_right (insert_reverse key) [] l.

(** ** The handlers that do not touch passwords *)

(** GET /logout *)
Definition logout (session_token : option string)
    (w : World) : Response * World :=
  let sessions' :=
    match session_token with
    | Some token =>
        if truthy session_token then
          match sessions w !! token with
          | Some _ => delete token (sessions w)
          | None => sessions w
          end
        else sessions w
    | None => sessions w
    end in
  (RedirectResponse "/" (delete_cookie "session_token"),
   mkWorld (db w) sessions' (static_images w)).

(** GET /: lines 96-103 build the pairs and sort them. *)
Definition products_with_ratings (s : Store) : list (Product.t * nat) :=
  map (fun product => (product, rating_count (Product.id product) s))
      (products s).

Definition read_products (current_user : option User.t)
    (w : World) : Response * World :=
  (TemplateResponse
     (index_html (sort_reverse snd (products_with_ratings (db w)))
                 current_user),
   w).

(** GET /add_product *)
Definition add_product_form (current_user : option User.t)
    (w : World) : Response * World :=
  match current_user with
  | None => (RedirectResponse "/login" no_cookie, w)
  | Some _ => (TemplateResponse (add_product_html current_user None), w)
  end.

(** POST /add_product.  The directory static/images is created when missing;
    the file map stands for its contents.  The file is opened before the row
    is added: when [open] raises nothing has been written or inserted, and
    when the commit raises the file is there without a row. *)
Definition add_product (name description : string) (price : float)
    (stock : Z) (image : UploadFile) (random : N)
    (current_user : option User.t) (w : World) : Response * World :=
  match current_user with
  | None => (RedirectResponse "/login" no_cookie, w)
  | Some user =>
      match filename image with
      | Some (String c fn) =>
          let image_filename :=
            str_uuid (uuid4 random) +:+ "_" +:+ String c fn in
          match open_wb image_filename (file image) (static_images w) with
          | inl e => (Uncaught e, w)
          | inr images =>
              match add_product_row name description price stock
                                    image_filename (User.id user) (db w) with
              | inl e => (Uncaught e, mkWorld (db w) (sessions w) images)
              | inr (_, s') =>
                  (RedirectResponse "/" no_cookie,
                   mkWorld s' (sessions w) images)
              end
          end
      | _ =>
          (TemplateResponse
             (add_product_html current_user
                               (Some "No se ha cargado ninguna imagen")),
           w)
      end
  end.

(** [has_rated]: lines 170-176 *)
Definition user_has_rated (user_id product_id : Z) (s : Store) : bool :=
  match first (fun r => (Rating.user_id r =? user_id)
                        && (Rating.product_id r =? product_id))
              (ratings s) with
  | Some _ => true
  | None => false
  end.

(** GET /product/{product_id} *)
Definition product_detail (product_id : Z) (current_user : option User.t)
    (w : World) : Response * World :=
  match first (fun p => Product.id p =? product_id) (products (db w)) with
  | None => (HTTPException 404 "Producto no encontrado", w)
  | Some product =>
      let has_rated :=
        match current_user with
        | Some user => user_has_rated (User.id user) product_id (db w)
        | None => false
        end in
      (TemplateResponse
         (product_detail_html product
            (rating_count (Product.id product) (db w)) has_rated current_user),
       w)
  end.

(** The query shared by the edit form, edit and delete: the product with
    this id that the user owns. *)
Definition owned_product (product_id : Z) (user : User.t)
    (s : Store) : option Product.t :=
  first (fun p => (Product.id p =? product_id)
                  && (Product.owner_id p =? User.id user)) (products s).

(** GET /edit_product/{product_id} *)
Definition edit_product_form (product_id : Z) (current_user : option User.t)
    (w : World) : Response * World :=
  match current_user with
  | None => (RedirectResponse "/login" no_cookie, w)
  | Some user =>
      match owned_product product_id user (db w) with
      | None =>
          (HTTPException 404
             "Producto no encontrado o no tienes permiso para editarlo", w)
      | Some product =>
          (TemplateResponse (edit_product_html product current_user), w)
      end
  end.

(** Lines 223-226 and 241-244 of edit_product: the assigned fields are
    committed and the requester is sent to the product's page; a commit that
    raises leaves the row as it was. *)
Definition edit_product_commit (product_id : Z) (product' : Product.t)
    (images : gmap string (list Byte.byte)) (w : World) : Response * World :=
  match update_product product' (db w) with
  | inl e => (Uncaught e, mkWorld (db w) (sessions w) images)
  | inr s' =>
      (RedirectResponse ("/product/" +:+ pretty product_id) no_cookie,
       mkWorld s' (sessions w) images)
  end.

(** POST /edit_product/{product_id}: the image is optional ([File(None)]).
    With a named upload the old file is removed first, then the new one is
    opened; when that raises, the old file is gone and no row has changed. *)
Definition edit_product (product_id : Z) (name description : string)
    (price : float) (stock : Z) (image : option UploadFile) (random : N)
    (current_user : option User.t) (w : World) : Response * World :=
  match current_user with
  | None => (RedirectResponse "/login" no_cookie, w)
  | Some user =>
      match owned_product product_id user (db w) with
      | None =>
          (HTTPException 404
             "Producto no encontrado o no tienes permiso para editarlo", w)
      | Some product =>
          match image with
          | Some (mkUpload (Some (String c fn)) bytes) =>
              let removed :=
                match static_images w !! Product.image product with
                | Some _ => delete (Product.image product) (static_images w)
                | None => static_images w
                end in
              let image_filename :=
                str_uuid (uuid4 random) +:+ "_" +:+ String c fn in
              match open_wb image_filename bytes removed with
              | inl e => (Uncaught e, mkWorld (db w) (sessions w) removed)
              | inr images =>
                  edit_product_commit product_id
                    (Product.mk (Product.id product) name description price
                                stock image_filename
                                (Product.owner_id product))
                    images w
              end
          | _ =>
              edit_product_commit product_id
                (Product.mk (Product.id product) name description price
                            stock (Product.image product)
                            (Product.owner_id product))
                (static_images w) w
          end
      end
  end.

(** POST /delete_product/{product_id}: the image file goes first, then the
    row. *)
Definition delete_product (product_id : Z) (current_user : option User.t)
    (w : World) : Response * World :=
  match current_user with
  | None => (RedirectResponse "/login" no_cookie, w)
  | Some user =>
      match owned_product product_id user (db w) with
      | None =>
          (HTTPException 404
             "Producto no encontrado o no tienes permiso para eliminarlo", w)
      | Some product =>
          let images :=
            match static_images w !! Product.image product with
            | Some _ => delete (Product.image product) (static_images w)
            | None => static_images w
            end in
          match delete_product_row product (db w) with
          | inl e => (Uncaught e, mkWorld (db w) (sessions w) images)
          | inr s' =>
              (RedirectResponse "/" no_cookie, mkWorld s' (sessions w) images)
          end
      end
  end.

(** GET /user/{user_id} *)
Definition user_detail (user_id : Z) (current_user : option User.t)
    (w : World) : Response * World :=
  match first (fun u => User.id u =? user_id) (users (db w)) with
  | None => (HTTPException 404 "Usuario no encontrado", w)
  | Some user => (TemplateResponse (user_detail_html user current_user), w)
  end.

(** ** The handlers that use [pwd_context]

    [CryptContext(schemes=["bcrypt"])]: hashing draws a salt, verification
    compares a password with a stored hash.  Both are taken as given. *)
Record CryptContext : Type := mkCrypt {
  pwd_hash : string -> string -> string;
  pwd_verify : string -> string -> bool
}.

(** What a request asks for, one constructor per route. *)
Inductive Request : Type :=
| GET_register
| POST_register (username email password whatsapp : string)
| GET_login
| POST_login (username password : string)
| GET_logout
| GET_index
| GET_add_product
| POST_add_product (name description : string) (price : float) (stock : Z)
                   (image : UploadFile)
| GET_product (product_id : Z)
| GET_edit_product (product_id : Z)
| POST_edit_product (product_id : Z) (name description : string)
                    (price : float) (stock : Z) (image : option UploadFile)
| POST_delete_product (product_id : Z)
| GET_user (user_id : Z)
| POST_rate_product (product_id : Z).

Section Passwords.
Variable pwd_context : CryptContext.

(** GET /register and GET /login *)
Definition register (w : World) : Response * World :=
  (TemplateResponse (register_html None), w).

Definition login (w : World) : Response * World :=
  (TemplateResponse (login_html None), w).

(** POST /register *)
Definition register_user (username email password whatsapp : string)
    (salt : string) (random : N) (w : World) : Response * World :=
  match first (fun u => String.eqb (User.username u) username
                        || String.eqb (User.email u) email)
              (users (db w)) with
  | Some _ =>
      (TemplateResponse
         (register_html (Some "El usuario o el correo ya existen")), w)
  | None =>
      let hashed_password := pwd_hash pwd_context salt password in
      match add_user username email hashed_password whatsapp (db w) with
      | inl e => (Uncaught e, w)
      | inr (user, s') => open_session user random s' w
      end
  end.

(** POST /login *)
Definition login_user (username password : string) (random : N)
    (w : World) : Response * World :=
  match first (fun u => String.eqb (User.username u) username)
              (users (db w)) with
  | Some user =>
      if pwd_verify pwd_context password (User.hashed_password user)
      then open_session user random (db w) w
      else
        (TemplateResponse (login_html (Some "Credenciales incorrectas")), w)
  | None =>
      (TemplateResponse (login_html (Some "Credenciales incorrectas")), w)
  end.

(** Routing: the cookie is resolved to the current user first
    ([Depends(get_current_user)]); [salt] and [random] are what the request
    draws from the salt and identifier generators. *)
Definition handle (session_token : option string) (salt : string)
    (random : N) (req : Request) (w : World) : Response * World :=
  let current_user := get_current_user session_token w in
  match req with
  | GET_register => register w
  | POST_register username email password whatsapp =>
      register_user username email password whatsapp salt random w
  | GET_login => login w
  | POST_login username password => login_user username password random w
  | GET_logout => logout session_token w
  | GET_index => read_products current_user w
  | GET_add_product => add_product_form current_user w
  | POST_add_product name description price stock image =>
      add_product name description price stock image random current_user w
  | GET_product product_id => product_detail product_id current_user w
  | GET_edit_product product_id =>
      edit_product_form product_id current_user w
  | POST_edit_product product_id name description price stock image =>
      edit_product product_id name description price stock image random
                   current_user w
  | POST_delete_product product_id =>
      delete_product product_id current_user w
  | GET_user user_id => user_detail user_id current_user w
  | POST_rate_product product_id => rate_product product_id current_user w
  end.

(** The worlds the application can be in: the empty one at start-up and
    whatever a request leaves behind. *)
Inductive reachable : World -> Prop :=
| reachable_start : reachable empty_world
| reachable_request w session_token salt random req :
    reachable w ->
    reachable (snd (handle session_token salt random req w)).

End Passwords.

(** ** Two requests rating at once

    Handlers run on a thread pool, each with a session of its own.  The
    schedule in which both requests run their checks (lines 286-300) on the
    same store before either commits: the first commits, then the second. *)
Definition rate_product_race (product_id : Z)
    (first_user second_user : option User.t)
    (w : World) : Response * Response * World :=
  let check1 := rate_product_check product_id first_user (db w) in
  let check2 := rate_product_check product_id second_user (db w) in
  let '(r1, w1) :=
    match check1 with
    | rate_rejected r => (r, w)
    | rate_proceed user_id pid => rate_product_insert user_id pid w
    end in
  let '(r2, w2) :=
    match check2 with
    | rate_rejected r => (r, w1)
    | rate_proceed user_id pid => rate_product_insert user_id pid w1
    end in
  (r1, r2, w2).

(** ** What the specification calls things *)

(** A product with this id is in the catalog. *)
Definition product_exists (product_id : Z) (s : Store) : Prop :=
  exists p, In p (products s) /\ Product.id p = product_id.

(** There is a Rating row for (user, product). *)
Definition rated (user_id product_id : Z) (s : Store) : Prop :=
  exists r, In r (ratings s)
            /\ Rating.user_id r = user_id /\ Rating.product_id r = product_id.

(** The requester owns no product with this id: the anonymous requester,
    a product of somebody else, or no such product. *)
Definition not_owner (requester : option User.t) (product_id : Z)
    (s : Store) : Prop :=
  match requester with
  | None => True
  | Some user =>
      forall p, In p (products s) -> Product.id p = product_id ->
                Product.owner_id p <> User.id user
  end.

(** The merged "not found or no permission" signal: a 404. *)
Definition merged_not_found (r : Response) : Prop :=
  exists detail, r = HTTPException 404 detail.

(** At most one Rating row per (user, product). *)
Definition rating_key (r : Rating.t) : Z * Z :=
  (Rating.user_id r, Rating.product_id r).

Definition one_rating_per_pair (s : Store) : Prop :=
  List.NoDup (map rating_key (ratings s)).

(** Primary keys of products are distinct. *)
Definition product_ids_unique (s : Store) : Prop :=
  List.NoDup (map Product.id (products s)).

(** An upload that carries a file name. *)
Definition named (image : UploadFile) : bool := truthy (filename image).

(** Sorted by key, largest first. *)
Definition descending {A : Type} (key : A -> nat) : list A -> Prop :=
  StronglySorted (fun a b => (key b <= key a)%nat).

(** The rows with a given key, in order of appearance. *)
Definition with_key {A : Type} (key : A -> nat) (k : nat)
    (l : list A) : list A :=
  List.filter (fun x => (key x =? k)%nat) l.

(** The Rating rows of a (user, product) pair. *)
Definition ratings_of_pair (user_id product_id : Z) (s : Store)
    : list Rating.t :=
  List.filter (fun r => (Rating.user_id r =? user_id)
                        && (Rating.product_id r =? product_id)) (ratings s).

(** What a successful rating leaves behind: the same world with one more row
    at the end of ratings. *)
Definition with_rating (r : Rating.t) (w : World) : World :=
  mkWorld (mkStore (users (db w)) (products (db w)) (ratings (db w) ++ [r]))
          (sessions w) (static_images w).

(** The image reference an edit leaves on the product. *)
Definition edited_image (image : option UploadFile) (random : N)
    (old : string) : string :=
  match image with
  | Some (mkUpload (Some (String c fn)) _) =>
      str_uuid (uuid4 random) +:+ "_" +:+ String c fn
  | _ => old
  end.

(** What a request can do to the ratings table: nothing, or append one row
    for a pair that had none. *)
Definition ratings_step (s s' : Store) : Prop :=
  ratings s' = ratings s
  \/ exists r, ratings s' = (ratings s ++ [r])%list
               /\ ~ rated (Rating.user_id r) (Rating.product_id r) s.

(** ** A run of the application

    Ana registers and lists a table; Beto registers and rates it. *)
Definition demo_crypt : CryptContext :=
  mkCrypt (fun salt password => salt +:+ "$" +:+ password)
          (fun password hashed =>
             String.eqb hashed ("salt$" +:+ password)).

Definition run (session_token : option string) (random : N) (req : Request)
    (w : World) : World :=
  snd (handle demo_crypt session_token "salt" random req w).

Definition token_ana : string := str_uuid (uuid4 1).
Definition token_beto : string := str_uuid (uuid4 2).

Definition mesa_png : UploadFile := mkUpload (Some "mesa.png") [].

Definition world_ana : World :=
  run None 1 (POST_register "ana" "ana@x.org" "pw" "555") empty_world.

Definition world_mesa : World :=
  run (Some token_ana) 7
      (POST_add_product "mesa" "de pino" 10%float 5 mesa_png) world_ana.

Definition world_beto : World :=
  run None 2 (POST_register "beto" "beto@x.org" "pw" "556") world_mesa.

Definition world_rated : World :=
  run (Some token_beto) 0 (POST_rate_product 1) world_beto.

Definition ana : User.t := User.mk 1 "ana" "ana@x.org" "salt$pw" "555".
Definition beto : User.t := User.mk 2 "beto" "beto@x.org" "salt$pw" "556".
Definition mesa : Product.t :=
  Product.mk 1 "mesa" "de pino" 10%float 5
             "00000000-0000-4000-8000-000000000007_mesa.png" 1.

(** ** More of what the specification calls things *)

(** A user with this id is registered. *)
Definition user_exists (user_id : Z) (s : Store) : Prop :=
  exists u, In u (users s) /\ User.id u = user_id.

(** Keys, usernames and emails of users are distinct. *)
Definition users_unique (s : Store) : Prop :=
  List.NoDup (map User.id (users s))
  /\ List.NoDup (map User.username (users s))
  /\ List.NoDup (map User.email (users s)).

(** The foreign keys of models.py: a rating refers to a user and a product
    that exist, a product to an owner that exists. *)
Definition references_hold (s : Store) : Prop :=
  (forall r, In r (ratings s) ->
             user_exists (Rating.user_id r) s
             /\ product_exists (Rating.product_id r) s)
  /\ (forall p, In p (products s) -> user_exists (Product.owner_id p) s).

(** The GET routes that only render a page. *)
Definition read_only_route (req : Request) : bool :=
  match req with
  | GET_register | GET_login | GET_index | GET_add_product
  | GET_product _ | GET_edit_product _ | GET_user _ => true
  | _ => false
  end.

(** The routes that open or close a session. *)
Definition session_route (req : Request) : bool :=
  match req with
  | POST_register _ _ _ _ | POST_login _ _ | GET_logout => true
  | _ => false
  end.

(** Keys of ratings are distinct. *)
Definition rating_ids_unique (s : Store) : Prop :=
  List.NoDup (map Rating.id (ratings s)).

(** What one request can do to the tables: nothing; append a user with a
    fresh key, name and email; append a product of an existing owner under a
    fresh key; rewrite the rows that carry the key of a product, keeping key
    and owner; drop the rows that carry the key of a product without
    ratings; append a rating with a fresh key for an existing user and
    product that had none. *)
Inductive store_change (s : Store) : Store -> Prop :=
| change_nothing :
    store_change s (mkStore (users s) (products s) (ratings s))
| change_add_user u :
    User.id u = next_id (map User.id (users s)) ->
    (forall v, In v (users s) ->
               User.username v <> User.username u
               /\ User.email v <> User.email u) ->
    store_change s (mkStore (users s ++ [u]) (products s) (ratings s))
| change_add_product p :
    Product.id p = next_id (map Product.id (products s)) ->
    user_exists (Product.owner_id p) s ->
    store_change s (mkStore (users s) (products s ++ [p]) (ratings s))
| change_edit_product p p' :
    In p (products s) ->
    Product.id p' = Product.id p ->
    Product.owner_id p' = Product.owner_id p ->
    store_change s
      (mkStore (users s)
               (map (fun q => if Product.id q =? Product.id p then p' else q)
                    (products s))
               (ratings s))
| change_delete_product p :
    In p (products s) ->
    product_ratings (Product.id p) s = [] ->
    store_change s
      (mkStore (users s)
               (List.filter (fun q => negb (Product.id q =? Product.id p))
                            (products s))
               (ratings s))
| change_add_rating r :
    Rating.id r = next_id (map Rating.id (ratings s)) ->
    user_exists (Rating.user_id r) s ->
    product_exists (Rating.product_id r) s ->
    ~ rated (Rating.user_id r) (Rating.product_id r) s ->
    store_change s (mkStore (users s) (products s) (ratings s ++ [r])).

(** * Properties *)

(** ** Queries over a table *)
Section Queries.
Context {A : Type}.
Implicit Types (c : A -> bool) (rows : list A).

Lemma first_none c rows :
  first c rows = None <-> (forall x, In x rows -> c x = false).
Proof.
  unfold first. split.
  - intros H x Hx. exact (List.find_none c rows H x Hx).
  - induction rows as [|y rows IH]; simpl; intros H; [reflexivity|].
    rewrite (H y (or_introl eq_refl)). apply IH.
    intros x Hx. apply H. now right.
Qed.

Lemma first_some c rows x :
  first c rows = Some x -> In x rows /\ c x = true.
Proof. apply List.find_some. Qed.

Lemma first_is_some c rows x :
  In x rows -> c x = true -> exists y, first c rows = Some y.
Proof.
  intros Hx Hc. destruct (first c rows) as [y|] eqn:E; [now exists y|].
  rewrite first_none in E. rewrite (E x Hx) in Hc. discriminate.
Qed.

Lemma existsb_first c rows :
  existsb c rows = false <-> first c rows = None.
Proof.
  rewrite first_none. split.
  - intros H x Hx. destruct (c x) eqn:E; [|reflexivity].
    rewrite <- H. symmetry. apply existsb_exists. now exists x.
  - intros H. destruct (existsb c rows) eqn:E; [|reflexivity].
    apply existsb_exists in E as (x & Hx & Hc).
    rewrite (H x Hx) in Hc. discriminate.
Qed.

Lemma first_app_last c rows x :
  (forall y, In y rows -> c y = false) -> c x = true ->
  first c (rows ++ [x]) = Some x.
Proof.
  unfold first. induction rows as [|y rows IH]; simpl; intros H Hc.
  - now rewrite Hc.
  - rewrite (H y (or_introl eq_refl)). apply IH; [|exact Hc].
    intros z Hz. apply H. now right.
Qed.

Lemma NoDup_map_same (f : A -> Z) rows a b :
  List.NoDup (map f rows) -> In a rows -> In b rows -> f a = f b -> a = b.
Proof.
  induction rows as [|y rows IH]; simpl; [tauto|].
  intros Hnd Ha Hb Hf. inversion Hnd as [|? ? Hnotin Hnd']; subst.
  destruct Ha as [->|Ha], Hb as [->|Hb]; auto.
  - exfalso. apply Hnotin. rewrite Hf. now apply in_map.
  - exfalso. apply Hnotin. rewrite <- Hf. now apply in_map.
Qed.
End Queries.

Lemma next_id_above ids x : In x ids -> x < next_id ids.
Proof.
  unfold next_id. induction ids as [|y ids IH]; simpl; [tauto|].
  intros [->|Hx]; [lia|]. specialize (IH Hx). lia.
Qed.

(** ** The stable descending sort *)
Section SortReverse.
Context {A : Type} (key : A -> nat).

Lemma insert_reverse_perm x l :
  Permutation (insert_reverse key x l) (x :: l).
Proof.
  induction l as [|y l IH]; simpl; [reflexivity|].
  destruct (key x <? key y)%nat; [|reflexivity].
  rewrite IH. apply perm_swap.
Qed.

Lemma sort_reverse_perm l : Permutation (sort_reverse key l) l.
Proof.
  induction l as [|x l IH]; simpl; [reflexivity|].
  fold (sort_reverse key l). rewrite insert_reverse_perm.
  now apply perm_skip.
Qed.

Lemma insert_reverse_descending x l :
  descending key l -> descending key (insert_reverse key x l).
Proof.
  unfold descending.
  induction l as [|y l IH]; simpl; intros Hs.
  - constructor; constructor.
  - inversion Hs as [|? ? Hs' Hall]; subst.
    destruct (key x <? key y)%nat eqn:E.
    + apply Nat.ltb_lt in E. constructor; [now apply IH|].
      rewrite List.Forall_forall in *. intros z Hz.
      apply (Permutation_in _ (insert_reverse_perm x l)) in Hz.
      destruct Hz as [<-|Hz]; [lia|now apply Hall].
    + apply Nat.ltb_ge in E. constructor; [exact Hs|].
      constructor; [exact E|].
      rewrite List.Forall_forall in *. intros z Hz.
      specialize (Hall z Hz). lia.
Qed.

Lemma sort_reverse_descending l : descending key (sort_reverse key l).
Proof.
  induction l as [|x l IH]; simpl; [constructor|].
  now apply insert_reverse_descending.
Qed.

Lemma insert_reverse_with_key k x l :
  with_key key k (insert_reverse key x l) = with_key key k (x :: l).
Proof.
  unfold with_key.
  induction l as [|y l IH]; simpl; [reflexivity|].
  destruct (key x <? key y)%nat eqn:E; [|reflexivity].
  apply Nat.ltb_lt in E. simpl. rewrite IH. simpl.
  destruct (key x =? k)%nat eqn:Ex, (key y =? k)%nat eqn:Ey;
    try reflexivity.
  apply Nat.eqb_eq in Ex, Ey. lia.
Qed.

Lemma sort_reverse_stable k l :
  with_key key k (sort_reverse key l) = with_key key k l.
Proof.
  induction l as [|x l IH]; simpl; [reflexivity|].
  fold (sort_reverse key l). rewrite insert_reverse_with_key.
  unfold with_key in *. simpl. now rewrite IH.
Qed.
End SortReverse.

Lemma filter_counted {A : Type} (count : A -> nat) (k : nat) (l : list A) :
  map fst (List.filter (fun x : A * nat => (snd x =? k)%nat)
                       (map (fun p => (p, count p)) l))
  = List.filter (fun p => (count p =? k)%nat) l.
Proof.
  induction l as [|p l IH]; simpl; [reflexivity|].
  destruct (count p =? k)%nat; simpl; now rewrite IH.
Qed.

(** C6: the index page ranks the catalog by rating count.  The products on
    the page are exactly the rows of the products table; the number next to
    each is the number of Rating rows that refer to it; the page is sorted
    by that number in descending order; the sort is stable (for every count,
    the products with that count come out in the order of the table); and
    the handler leaves the world as it found it, so asking again gives the
    same page. *)
Theorem read_products_ranking (current_user : option User.t) (w : World) :
  exists ranked,
    read_products current_user w
    = (TemplateResponse (index_html ranked current_user), w)
    /\ Permutation (map fst ranked) (products (db w))
    /\ (forall p n,
          In (p, n) ranked ->
          n = length (List.filter
                        (fun r => Z.eqb (Rating.product_id r) (Product.id p))
                        (ratings (db w))))
    /\ StronglySorted (fun a b => (snd b <= snd a)%nat) ranked
    /\ (forall k,
          map fst (List.filter (fun x => (snd x =? k)%nat) ranked)
          = List.filter
              (fun p =>
                 (length (List.filter
                            (fun r => Z.eqb (Rating.product_id r)
                                            (Product.id p))
                            (ratings (db w))) =? k)%nat)
              (products (db w)))
    /\ read_products current_user (snd (read_products current_user w))
       = read_products current_user w.
Proof.
  exists (sort_reverse snd (products_with_ratings (db w))).
  pose proof (sort_reverse_perm snd (products_with_ratings (db w))) as Hperm.
  split; [reflexivity|]. split; [|split; [|split; [|split]]].
  - rewrite (Permutation_map fst Hperm).
    unfold products_with_ratings. rewrite map_map. simpl.
    now rewrite map_id.
  - intros p n Hin. apply (Permutation_in _ Hperm) in Hin.
    unfold products_with_ratings in Hin.
    apply in_map_iff in Hin as (q & [= <- <-] & _). reflexivity.
  - apply (sort_reverse_descending snd).
  - intros k.
    pose proof (sort_reverse_stable snd k (products_with_ratings (db w)))
      as Hstable.
    unfold with_key in Hstable. rewrite Hstable.
    unfold products_with_ratings.
    apply (filter_counted
             (fun p => rating_count (Product.id p) (db w)) k
             (products (db w))).
  - reflexivity.
Qed.

(** ** The rating ledger *)

Lemma product_query_none product_id s :
  first (fun p => Product.id p =? product_id) (products s) = None
  <-> ~ product_exists product_id s.
Proof.
  rewrite first_none. unfold product_exists. split.
  - intros H (p & Hp & Hid). specialize (H p Hp). lia.
  - intros H p Hp. destruct (Product.id p =? product_id) eqn:E; [|reflexivity].
    exfalso. apply H. exists p. split; [exact Hp|lia].
Qed.

Lemma rating_query_none user_id product_id s :
  first (fun r => (Rating.user_id r =? user_id)
                  && (Rating.product_id r =? product_id)) (ratings s) = None
  <-> ~ rated user_id product_id s.
Proof.
  rewrite first_none. unfold rated. split.
  - intros H (r & Hr & Hu & Hp). specialize (H r Hr). lia.
  - intros H r Hr.
    destruct ((Rating.user_id r =? user_id)
              && (Rating.product_id r =? product_id)) eqn:E; [|reflexivity].
    exfalso. apply H. exists r. split; [exact Hr|lia].
Qed.

Lemma user_has_rated_iff user_id product_id s :
  user_has_rated user_id product_id s = true <-> rated user_id product_id s.
Proof.
  unfold user_has_rated.
  destruct (first _ (ratings s)) as [r|] eqn:E.
  - split; [intros _|reflexivity].
    apply first_some in E as [Hr Hc]. exists r. split; [exact Hr|lia].
  - apply rating_query_none in E. split; [discriminate|tauto].
Qed.

Lemma rating_count_app product_id us ps rs r :
  rating_count product_id (mkStore us ps (rs ++ [r]))
  = (rating_count product_id (mkStore us ps rs)
     + if Z.eqb (Rating.product_id r) product_id then 1 else 0)%nat.
Proof.
  unfold rating_count, product_ratings. simpl.
  rewrite List.filter_app, List.length_app. simpl.
  now destruct (Rating.product_id r =? product_id).
Qed.

Lemma rate_product_fresh product_id user w :
  product_exists product_id (db w) ->
  ~ rated (User.id user) product_id (db w) ->
  rate_product product_id (Some user) w
  = (RedirectResponse ("/product/" +:+ pretty product_id) no_cookie,
     with_rating (Rating.mk (next_id (map Rating.id (ratings (db w))))
                            (User.id user) product_id) w).
Proof.
  intros Hp Hr. unfold rate_product, rate_product_check.
  destruct (first _ (products (db w))) as [p|] eqn:Ep;
    [|apply product_query_none in Ep; tauto].
  apply rating_query_none in Hr. rewrite Hr.
  unfold rate_product_insert, add_rating.
  apply existsb_first in Hr. rewrite Hr. reflexivity.
Qed.

Lemma rate_product_again product_id user w :
  product_exists product_id (db w) ->
  rated (User.id user) product_id (db w) ->
  rate_product product_id (Some user) w
  = (HTTPException 400 "Ya has puntuado este producto", w).
Proof.
  intros Hp Hr. unfold rate_product, rate_product_check.
  destruct (first _ (products (db w))) as [p|] eqn:Ep;
    [|apply product_query_none in Ep; tauto].
  destruct (first _ (ratings (db w))) as [r|] eqn:Er; [reflexivity|].
  apply rating_query_none in Er. tauto.
Qed.

(** C4: rating fails with 401 for the anonymous requester, with 404 for an
    authenticated one when the product is absent, with 400 when the product
    is there and the user has a Rating row for it; otherwise it succeeds and
    appends exactly one Rating row, and rating a second time fails with 400,
    so after the two calls the product's count is one more than before. *)
Theorem rate_product_outcomes (product_id : Z) (w : World) :
  rate_product product_id None w
  = (HTTPException 401 "Debes iniciar sesi√≥n para puntuar un producto", w)
  /\ (forall user,
        ~ product_exists product_id (db w) ->
        rate_product product_id (Some user) w
        = (HTTPException 404 "Producto no encontrado", w))
  /\ (forall user,
        product_exists product_id (db w) ->
        rated (User.id user) product_id (db w) ->
        rate_product product_id (Some user) w
        = (HTTPException 400 "Ya has puntuado este producto", w))
  /\ (forall user,
        product_exists product_id (db w) ->
        ~ rated (User.id user) product_id (db w) ->
        exists rating,
          let w1 := with_rating rating w in
          rate_product product_id (Some user) w
          = (RedirectResponse ("/product/" +:+ pretty product_id) no_cookie,
             w1)
          /\ Rating.user_id rating = User.id user
          /\ Rating.product_id rating = product_id
          /\ rating_count product_id (db w1)
             = S (rating_count product_id (db w))
          /\ rate_product product_id (Some user) w1
             = (HTTPException 400 "Ya has puntuado este producto", w1)
          /\ rating_count product_id
               (db (snd (rate_product product_id (Some user) w1)))
             = S (rating_count product_id (db w))).
Proof.
  split; [reflexivity|]. split; [|split].
  - intros user Hp. apply product_query_none in Hp.
    unfold rate_product, rate_product_check. now rewrite Hp.
  - intros user. apply rate_product_again.
  - intros user Hp Hr.
    eexists. cbv zeta. split; [now apply rate_product_fresh|].
    split; [reflexivity|]. split; [reflexivity|].
    assert (Hcount : rating_count product_id
                       (db (with_rating
                              (Rating.mk (next_id (map Rating.id
                                                       (ratings (db w))))
                                         (User.id user) product_id) w))
                     = S (rating_count product_id (db w))).
    { unfold with_rating. simpl. rewrite rating_count_app. simpl.
      rewrite Z.eqb_refl. destruct (db w); simpl. lia. }
    split; [exact Hcount|].
    assert (Hagain : rate_product product_id (Some user)
                       (with_rating
                          (Rating.mk (next_id (map Rating.id
                                                   (ratings (db w))))
                                     (User.id user) product_id) w)
                     = (HTTPException 400 "Ya has puntuado este producto",
                        with_rating
                          (Rating.mk (next_id (map Rating.id
                                                   (ratings (db w))))
                                     (User.id user) product_id) w)).
    { apply rate_product_again; [exact Hp|].
      eexists. split; [apply in_or_app; right; left; reflexivity|].
      split; reflexivity. }
    split; [exact Hagain|]. rewrite Hagain. exact Hcount.
Qed.

(** C8: an authenticated user who owns a product and has not rated it can
    rate it: the request succeeds and the owner's rating is recorded. *)
Theorem owner_rates_own_product (user : User.t) (product : Product.t)
    (w : World) :
  In product (products (db w)) ->
  Product.owner_id product = User.id user ->
  ~ rated (User.id user) (Product.id product) (db w) ->
  fst (rate_product (Product.id product) (Some user) w)
  = RedirectResponse ("/product/" +:+ pretty (Product.id product)) no_cookie
  /\ rated (User.id user) (Product.id product)
           (db (snd (rate_product (Product.id product) (Some user) w)))
  /\ rating_count (Product.id product)
       (db (snd (rate_product (Product.id product) (Some user) w)))
     = S (rating_count (Product.id product) (db w)).
Proof.
  intros Hin _ Hr.
  rewrite rate_product_fresh; [|now exists product|exact Hr]. simpl.
  split; [reflexivity|]. split.
  - eexists. split; [apply in_or_app; right; left; reflexivity|].
    split; reflexivity.
  - rewrite rating_count_app. simpl. rewrite Z.eqb_refl.
    destruct (db w); simpl. lia.
Qed.

(** Ana rates the table she listed. *)
Lemma owner_rates_own_product_witness :
  fst (rate_product 1 (Some ana) world_mesa)
  = RedirectResponse "/product/1" no_cookie
  /\ rated 1 1 (db (snd (rate_product 1 (Some ana) world_mesa)))
  /\ rating_count 1 (db (snd (rate_product 1 (Some ana) world_mesa))) = 1%nat.
Proof.
  apply (owner_rates_own_product ana mesa world_mesa).
  - vm_compute. left. reflexivity.
  - reflexivity.
  - intros (r & Hr & _). vm_compute in Hr. exact Hr.
Defined.

(** C10 as stated fails here.  Beto's two requests race on the table: both
    pass the checks, the second commit is refused and its caller gets the uncaught error, not the 400. *)
Lemma rate_product_race_example :
  rate_product_check 1 (Some beto) (db world_beto) = rate_proceed 2 1
  /\ snd (fst (rate_product_race 1 (Some beto) (Some beto) world_beto))
     = Uncaught (IntegrityError "_user_product_uc")
  /\ snd (fst (rate_product_race 1 (Some beto) (Some beto) world_beto))
     <> HTTPException 400 "Ya has puntuado este producto".
Proof.
  split; [vm_compute; reflexivity|].
  split; [vm_compute; reflexivity|].
  vm_compute. discriminate.
Qed.

(** C10, as the code has it: when two requests for the same (user, product)
    both pass the checks before either commits, the first commit stores the
    row and the second is refused by the uniqueness constraint of ratings;
    nothing catches that, so the second caller gets the uncaught
    IntegrityError and not the 400 of the check; one row is stored. *)
Theorem rate_product_race_second (product_id : Z) (user : User.t)
    (w : World) :
  rate_product_check product_id (Some user) (db w)
  = rate_proceed (User.id user) product_id ->
  exists rating,
    rate_product_race product_id (Some user) (Some user) w
    = (RedirectResponse ("/product/" +:+ pretty product_id) no_cookie,
       Uncaught (IntegrityError "_user_product_uc"),
       with_rating rating w)
    /\ rating_key rating = (User.id user, product_id).
Proof.
  intros Hcheck. unfold rate_product_race. rewrite Hcheck.
  unfold rate_product_check in Hcheck.
  destruct (first _ (products (db w))) as [p|]; [|discriminate].
  destruct (first _ (ratings (db w))) as [r|] eqn:Er; [discriminate|].
  apply existsb_first in Er.
  unfold rate_product_insert at 1. unfold add_rating. rewrite Er.
  eexists. split.
  - unfold rate_product_insert, add_rating, with_rating. simpl.
    rewrite existsb_app. simpl. rewrite !Z.eqb_refl. simpl.
    rewrite orb_true_r. reflexivity.
  - reflexivity.
Qed.

(** The race of Beto's two requests, through the theorem. *)
Lemma rate_product_race_second_witness :
  exists rating,
    rate_product_race 1 (Some beto) (Some beto) world_beto
    = (RedirectResponse "/product/1" no_cookie,
       Uncaught (IntegrityError "_user_product_uc"),
       with_rating rating world_beto)
    /\ rating_key rating = (2, 1).
Proof.
  apply (rate_product_race_second 1 beto world_beto).
  vm_compute. reflexivity.
Defined.

(** ** Registration and sessions *)

Lemma hex_length len n rest :
  String.length (hex len n rest) = (len + String.length rest)%nat.
Proof.
  revert n rest. induction len as [|len IH]; intros n rest; simpl.
  - reflexivity.
  - rewrite IH. simpl. lia.
Qed.

Lemma str_uuid_length int : String.length (str_uuid int) = 36%nat.
Proof.
  unfold str_uuid. cbv zeta.
  repeat (rewrite hex_length; cbn [String.length]). reflexivity.
Qed.

Lemma str_uuid_truthy int : truthy (Some (str_uuid int)) = true.
Proof.
  pose proof (str_uuid_length int) as H.
  destruct (str_uuid int); [discriminate H|reflexivity].
Qed.

Lemma open_session_resolves user random us ps rs w :
  (forall u, In u us -> User.id u <> User.id user) ->
  get_current_user (Some (str_uuid (uuid4 random)))
    (snd (open_session user random (mkStore (us ++ [user]) ps rs) w))
  = Some user.
Proof.
  intros Hfresh. unfold open_session, get_current_user.
  rewrite str_uuid_truthy. simpl. rewrite lookup_insert_eq.
  apply first_app_last; [|apply Z.eqb_refl].
  intros u Hu. specialize (Hfresh u Hu). lia.
Qed.

(** C7: when the username or the email belongs to an existing user,
    registration answers with the form and its conflict message and the world
    is unchanged; when neither is taken, it appends the user, stores a session
    for a freshly drawn token, hands that token back in the cookie, and the
    token resolves to the new user. *)
Theorem register_user_outcomes (pwd_context : CryptContext)
    (username email password whatsapp salt : string) (random : N)
    (w : World) :
  ((exists u, In u (users (db w))
              /\ (User.username u = username \/ User.email u = email)) ->
   register_user pwd_context username email password whatsapp salt random w
   = (TemplateResponse
        (register_html (Some "El usuario o el correo ya existen")), w))
  /\ ((forall u, In u (users (db w)) ->
                 User.username u <> username /\ User.email u <> email) ->
      exists user session_token,
        register_user pwd_context username email password whatsapp salt
                      random w
        = (RedirectResponse "/" (set_cookie "session_token" session_token),
           mkWorld (mkStore (users (db w) ++ [user]) (products (db w))
                            (ratings (db w)))
                   (<[session_token := User.id user]> (sessions w))
                   (static_images w))
        /\ User.username user = username
        /\ User.email user = email
        /\ User.whatsapp user = whatsapp
        /\ session_token = str_uuid (uuid4 random)
        /\ get_current_user (Some session_token)
             (snd (register_user pwd_context username email password
                                 whatsapp salt random w))
           = Some user).
Proof.
  split.
  - intros (u & Hu & Htaken). unfold register_user.
    destruct (first _ (users (db w))) as [u'|] eqn:E; [reflexivity|].
    rewrite first_none in E. specialize (E u Hu). simpl in E.
    apply orb_false_elim in E as [E1 E2].
    apply String.eqb_neq in E1, E2. tauto.
  - intros Hfree.
    assert (Hq : first (fun u => String.eqb (User.username u) username
                                 || String.eqb (User.email u) email)
                       (users (db w)) = None).
    { apply first_none. intros u Hu. destruct (Hfree u Hu) as [H1 H2].
      apply String.eqb_neq in H1, H2. now rewrite H1, H2. }
    assert (Hn : existsb (fun u => String.eqb (User.username u) username)
                         (users (db w)) = false).
    { apply existsb_first, first_none. intros u Hu.
      apply String.eqb_neq. now apply Hfree. }
    assert (He : existsb (fun u => String.eqb (User.email u) email)
                         (users (db w)) = false).
    { apply existsb_first, first_none. intros u Hu.
      apply String.eqb_neq. now apply Hfree. }
    unfold register_user, add_user. rewrite Hq, Hn, He.
    eexists. eexists. split; [reflexivity|].
    repeat (split; [reflexivity|]).
    apply open_session_resolves. intros u Hu. simpl.
    assert (User.id u < next_id (map User.id (users (db w)))); [|lia].
    apply next_id_above. now apply in_map.
Qed.

(** ** The catalog *)

Lemma owned_product_some product_id user s product :
  owned_product product_id user s = Some product ->
  In product (products s)
  /\ Product.id product = product_id
  /\ Product.owner_id product = User.id user.
Proof.
  unfold owned_product. intros H. apply first_some in H as [Hin Hc].
  split; [exact Hin|lia].
Qed.

Lemma owned_product_none product_id user s :
  owned_product product_id user s = None
  <-> not_owner (Some user) product_id s.
Proof.
  unfold owned_product, not_owner. rewrite first_none. split.
  - intros H p Hp Hid. specialize (H p Hp). lia.
  - intros H p Hp.
    destruct ((Product.id p =? product_id)
              && (Product.owner_id p =? User.id user)) eqn:E; [|reflexivity].
    exfalso. apply (H p Hp); lia.
Qed.

Lemma open_wb_inr name bytes images images' :
  open_wb name bytes images = inr images' ->
  images' = <[name := bytes]> images.
Proof. unfold open_wb. repeat case_match; congruence. Qed.



(** C3 as stated fails here: without a login, edit and delete answer with a
    redirect to /login, which is not the 404. *)
Lemma edit_delete_anonymous_example :
  not_owner None 1 (db world_mesa)
  /\ fst (delete_product 1 None world_mesa)
     = RedirectResponse "/login" no_cookie
  /\ fst (edit_product 1 "mesa" "de roble" 12%float 4 None 0 None world_mesa)
     = RedirectResponse "/login" no_cookie
  /\ ~ merged_not_found (fst (delete_product 1 None world_mesa))
  /\ ~ merged_not_found
         (fst (edit_product 1 "mesa" "de roble" 12%float 4 None 0 None
                            world_mesa)).
Proof.
  split; [exact I|]. split; [reflexivity|]. split; [reflexivity|].
  split; intros [detail H]; discriminate H.
Qed.

(** C3, as the code has it: a requester who does not own a product with the
    given id changes nothing through edit or delete.  A logged-in one gets
    one and the same 404 whether the product is somebody else's or does not
    exist (for edit the detail "Producto no encontrado o no tienes permiso
    para editarlo", for delete the one ending in "eliminarlo"); the anonymous
    one is sent to the login page. *)
Theorem edit_delete_not_owner (requester : option User.t) (product_id : Z)
    (name description : string) (price : float) (stock : Z)
    (image : option UploadFile) (random : N) (w : World) :
  not_owner requester product_id (db w) ->
  edit_product product_id name description price stock image random
               requester w
  = (match requester with
     | Some _ =>
         HTTPException 404
           "Producto no encontrado o no tienes permiso para editarlo"
     | None => RedirectResponse "/login" no_cookie
     end, w)
  /\ delete_product product_id requester w
     = (match requester with
        | Some _ =>
            HTTPException 404
              "Producto no encontrado o no tienes permiso para eliminarlo"
        | None => RedirectResponse "/login" no_cookie
        end, w).
Proof.
  intros H. unfold edit_product, delete_product.
  destruct requester as [user|]; [|split; reflexivity].
  apply owned_product_none in H. rewrite H. split; reflexivity.
Qed.

(** Beto tries to edit and to delete Ana's table (product 1), and then a
    product that does not exist (product 9): the answers are the same. *)
Lemma edit_delete_not_owner_witness :
  (edit_product 1 "mesa" "mia" 0%float 0 None 0 (Some beto) world_beto
   = (HTTPException 404
        "Producto no encontrado o no tienes permiso para editarlo",
      world_beto)
   /\ delete_product 1 (Some beto) world_beto
      = (HTTPException 404
           "Producto no encontrado o no tienes permiso para eliminarlo",
         world_beto))
  /\ (edit_product 9 "mesa" "mia" 0%float 0 None 0 (Some beto) world_beto
      = (HTTPException 404
           "Producto no encontrado o no tienes permiso para editarlo",
         world_beto)
      /\ delete_product 9 (Some beto) world_beto
         = (HTTPException 404
              "Producto no encontrado o no tienes permiso para eliminarlo",
            world_beto)).
Proof.
  split.
  - apply (edit_delete_not_owner (Some beto) 1 "mesa" "mia" 0%float 0 None 0
                                 world_beto).
    intros p Hp _. vm_compute in Hp. destruct Hp as [<-|[]].
    vm_compute. discriminate.
  - apply (edit_delete_not_owner (Some beto) 9 "mesa" "mia" 0%float 0 None 0
                                 world_beto).
    intros p Hp Hid. vm_compute in Hp. destruct Hp as [<-|[]].
    vm_compute in Hid. discriminate Hid.
Defined.

(** Ana deletes her table after Beto rated it: the delete is refused, the
    table is still in the catalog and Beto's rating is still there. *)
Lemma delete_rated_product_example :
  get_current_user (Some token_ana) world_rated = Some ana
  /\ owned_product 1 ana (db world_rated) = Some mesa
  /\ rating_count 1 (db world_rated) = 1%nat
  /\ fst (delete_product 1 (Some ana) world_rated)
     = Uncaught (IntegrityError "ratings.product_id")
  /\ db (snd (delete_product 1 (Some ana) world_rated)) = db world_rated
  /\ fst (product_detail 1 None (snd (delete_product 1 (Some ana) world_rated)))
     = TemplateResponse (product_detail_html mesa 1 false None)
  /\ rated 2 1 (db (snd (delete_product 1 (Some ana) world_rated))).
Proof.
  repeat (split; [vm_compute; reflexivity|]).
  exists (Rating.mk 1 2 1). vm_compute. auto.
Qed.

(** C1 fails on the code at every product it speaks of.  When the owner
    deletes a product that has at least one rating, the handler removes the
    image file and asks the store to delete the row; the store refuses (the
    ratings would lose their product), the handler lets the IntegrityError
    through, and the product and every rating are what they were: nothing
    is deleted and no rating is cascaded. *)
Lemma delete_product_rated_refused (user : User.t) (product_id : Z)
    (product : Product.t) (w : World) :
  owned_product product_id user (db w) = Some product ->
  rating_count product_id (db w) <> 0%nat ->
  fst (delete_product product_id (Some user) w)
  = Uncaught (IntegrityError "ratings.product_id")
  /\ db (snd (delete_product product_id (Some user) w)) = db w.
Proof.
  intros Hown. pose proof (owned_product_some _ _ _ _ Hown) as (_ & Hid & _).
  unfold delete_product, delete_product_row. rewrite Hown, Hid.
  unfold rating_count.
  destruct (product_ratings product_id (db w)) as [|r rs]; simpl.
  - intros H. now elim H.
  - intros _. split; reflexivity.
Qed.

(** Ana deletes her table after Beto rated it. *)
Lemma delete_product_rated_refused_witness :
  fst (delete_product 1 (Some ana) world_rated)
  = Uncaught (IntegrityError "ratings.product_id")
  /\ db (snd (delete_product 1 (Some ana) world_rated)) = db world_rated.
Proof.
  apply (delete_product_rated_refused ana 1 mesa world_rated).
  - vm_compute. reflexivity.
  - vm_compute. discriminate.
Defined.

(** X20: what a delete by the owner does to the tables.  It never removes a
    Rating row (no cascade is configured).  When the product has no rating
    the deletion succeeds: afterwards the product's page is a 404, no row of
    the catalog has its id while the other rows stay, and no rating refers
    to it. *)
Theorem delete_product_by_owner (user : User.t) (product_id : Z)
    (product : Product.t) (w : World) :
  owned_product product_id user (db w) = Some product ->
  ratings (db (snd (delete_product product_id (Some user) w)))
  = ratings (db w)
  /\ (rating_count product_id (db w) = 0%nat ->
      fst (delete_product product_id (Some user) w)
      = RedirectResponse "/" no_cookie
      /\ (forall viewer,
            fst (product_detail product_id viewer
                   (snd (delete_product product_id (Some user) w)))
            = HTTPException 404 "Producto no encontrado")
      /\ (forall q,
            In q (products
                    (db (snd (delete_product product_id (Some user) w))))
            <-> In q (products (db w)) /\ Product.id q <> product_id)
      /\ rating_count product_id
           (db (snd (delete_product product_id (Some user) w))) = 0%nat).
Proof.
  intros Hown. pose proof (owned_product_some _ _ _ _ Hown) as (Hin & Hid & _).
  unfold delete_product, delete_product_row. rewrite Hown, Hid.
  unfold rating_count.
  destruct (product_ratings product_id (db w)) as [|r rs] eqn:Er; simpl.
  - split; [reflexivity|]. intros _.
    assert (Hgone : forall q,
              In q (List.filter (fun q => negb (Product.id q =? product_id))
                                (products (db w)))
              <-> In q (products (db w)) /\ Product.id q <> product_id).
    { intros q. rewrite List.filter_In.
      destruct (Product.id q =? product_id) eqn:E; simpl;
        intuition (try discriminate; try lia). }
    split; [reflexivity|]. split; [|split; [exact Hgone|]].
    + intros viewer. unfold product_detail. simpl.
      destruct (first _ (List.filter _ (products (db w)))) as [q|] eqn:E;
        [|reflexivity].
      apply first_some in E as [Hq Hc]. apply Hgone in Hq. lia.
    + unfold product_ratings in *. simpl. now rewrite Er.
  - split; [reflexivity|discriminate].
Qed.

(** The owner deletes the table before anybody rated it. *)
Lemma delete_product_by_owner_witness :
  fst (delete_product 1 (Some ana) world_mesa) = RedirectResponse "/" no_cookie
  /\ products (db (snd (delete_product 1 (Some ana) world_mesa))) = [].
Proof.
  destruct (delete_product_by_owner ana 1 mesa world_mesa) as [_ H].
  - vm_compute. reflexivity.
  - destruct H as (Hr & _); [vm_compute; reflexivity|].
    split; [exact Hr|]. vm_compute. reflexivity.
Defined.

Lemma edited_image_unnamed random old :
  edited_image None random old = old
  /\ forall up, named up = false -> edited_image (Some up) random old = old.
Proof.
  split; [reflexivity|]. intros [[[|c fn]|] bytes]; simpl;
    [reflexivity|discriminate|reflexivity].
Qed.

(** C9: a successful edit by the owner replaces, in the row of that product,
    name, description, price and stock by the submitted values and the image
    reference only when a named file comes with the request; id and owner of
    the row stay, every other product row is the same, and users and ratings
    are unchanged. *)
Theorem edit_product_frame (user : User.t) (product_id : Z)
    (name description : string) (price : float) (stock : Z)
    (image : option UploadFile) (random : N) (w : World) :
  product_ids_unique (db w) ->
  fst (edit_product product_id name description price stock image random
                    (Some user) w)
  = RedirectResponse ("/product/" +:+ pretty product_id) no_cookie ->
  db (snd (edit_product product_id name description price stock image random
                        (Some user) w))
  = mkStore (users (db w))
      (map (fun q =>
              if Product.id q =? product_id
              then Product.mk (Product.id q) name description price stock
                     (edited_image image random (Product.image q))
                     (Product.owner_id q)
              else q)
           (products (db w)))
      (ratings (db w))
  /\ sessions (snd (edit_product product_id name description price stock
                                 image random (Some user) w))
     = sessions w.
Proof.
  intros Hpk Hok. unfold edit_product in *.
  destruct (owned_product product_id user (db w)) as [product|] eqn:Hown;
    [|discriminate Hok].
  apply owned_product_some in Hown as (Hin & Hid & Howner).
  subst product_id.
  assert (Hcommit : forall images,
    fst (edit_product_commit (Product.id product)
           (Product.mk (Product.id product) name description price stock
                       (edited_image image random (Product.image product))
                       (Product.owner_id product))
           images w)
    = RedirectResponse ("/product/" +:+ pretty (Product.id product))
                       no_cookie ->
    db (snd (edit_product_commit (Product.id product)
               (Product.mk (Product.id product) name description price stock
                           (edited_image image random (Product.image product))
                           (Product.owner_id product))
               images w))
    = mkStore (users (db w))
        (map (fun q =>
                if Product.id q =? Product.id product
                then Product.mk (Product.id q) name description price stock
                       (edited_image image random (Product.image q))
                       (Product.owner_id q)
                else q)
             (products (db w)))
        (ratings (db w))
    /\ sessions (snd (edit_product_commit (Product.id product)
                        (Product.mk (Product.id product) name description
                                    price stock
                                    (edited_image image random
                                                  (Product.image product))
                                    (Product.owner_id product))
                        images w))
       = sessions w).
  { intros images. unfold edit_product_commit, update_product.
    cbn [Product.stock Product.id].
    destruct (integer_column stock); [|discriminate].
    intros _. cbn [snd db sessions]. split; [|reflexivity].
    f_equal. apply map_ext_in. intros q Hq.
    destruct (Product.id q =? Product.id product) eqn:Eq; [|reflexivity].
    assert (q = product) as ->.
    { apply (NoDup_map_same Product.id (products (db w))); auto. lia. }
    reflexivity. }
  destruct image as [[[[|c fn]|] bytes]|];
    try (apply Hcommit; exact Hok).
  destruct (open_wb _ bytes _) as [e|images]; [discriminate Hok|].
  apply Hcommit. exact Hok.
Qed.

(** Ana edits her table without a new image. *)
Lemma edit_product_frame_witness :
  products (db (snd (edit_product 1 "mesa" "de roble" 12%float 4 None 0
                                  (Some ana) world_beto)))
  = [Product.mk 1 "mesa" "de roble" 12%float 4
                "00000000-0000-4000-8000-000000000007_mesa.png" 1].
Proof.
  destruct (edit_product_frame ana 1 "mesa" "de roble" 12%float 4 None 0
                               world_beto) as [H _].
  - vm_compute. repeat constructor. simpl. tauto.
  - vm_compute. reflexivity.
  - rewrite H. vm_compute. reflexivity.
Defined.

(** ** One rating per (user, product), in every reachable world *)

Lemma NoDup_snoc {A : Type} (l : list A) (x : A) :
  List.NoDup l -> ~ In x l -> List.NoDup (l ++ [x]).
Proof.
  induction l as [|y l IH]; simpl; intros Hnd Hx.
  - constructor; [tauto|constructor].
  - inversion Hnd as [|? ? Hy Hnd']; subst. constructor.
    + rewrite in_app_iff. simpl. intros [H|[H|[]]]; [tauto|].
      apply Hx. now left.
    + apply IH; [exact Hnd'|]. tauto.
Qed.

Lemma one_rating_per_pair_add us ps rs r :
  one_rating_per_pair (mkStore us ps rs) ->
  ~ rated (Rating.user_id r) (Rating.product_id r) (mkStore us ps rs) ->
  one_rating_per_pair (mkStore us ps (rs ++ [r])).
Proof.
  unfold one_rating_per_pair, rated. simpl. intros Hnd Hr.
  rewrite map_app. simpl. apply NoDup_snoc; [exact Hnd|].
  intros Hin. apply in_map_iff in Hin as (r' & Hk & Hin).
  apply Hr. exists r'. unfold rating_key in Hk. inversion Hk. auto.
Qed.

Lemma rate_product_ratings product_id current_user w :
  ratings_step (db w) (db (snd (rate_product product_id current_user w))).
Proof.
  unfold rate_product.
  destruct (rate_product_check product_id current_user (db w))
    as [r|user_id pid]; [now left|].
  unfold rate_product_insert, add_rating.
  destruct (existsb _ (ratings (db w))) eqn:E; [now left|].
  right. eexists. split; [reflexivity|]. simpl.
  apply rating_query_none, existsb_first. exact E.
Qed.

Lemma handle_ratings pwd_context session_token salt random req w :
  ratings_step (db w)
    (db (snd (handle pwd_context session_token salt random req w))).
Proof.
  destruct req; simpl; try apply rate_product_ratings; left;
    unfold register, login, register_user, login_user, logout, read_products,
      add_product_form, add_product, product_detail, edit_product_form,
      edit_product, edit_product_commit, delete_product, user_detail,
      add_user, open_session,
      add_product_row, delete_product_row, update_product;
    repeat case_match; simplify_eq; reflexivity.
Qed.

Lemma handle_one_rating_per_pair pwd_context session_token salt random req w :
  one_rating_per_pair (db w) ->
  one_rating_per_pair
    (db (snd (handle pwd_context session_token salt random req w))).
Proof.
  intros Hinv.
  destruct (handle_ratings pwd_context session_token salt random req w)
    as [Hsame|(r & Happ & Hfresh)].
  - unfold one_rating_per_pair in *. now rewrite Hsame.
  - unfold one_rating_per_pair in *. rewrite Happ.
    destruct (db w) as [us ps rs]. simpl in *.
    now apply (one_rating_per_pair_add us ps rs r).
Qed.

(** C5: every request handler keeps "at most one Rating row per
    (user, product)", and so every world the application can reach from the
    empty start has at most one. *)
Theorem one_rating_per_pair_invariant (pwd_context : CryptContext) :
  (forall session_token salt random req w,
     one_rating_per_pair (db w) ->
     one_rating_per_pair
       (db (snd (handle pwd_context session_token salt random req w))))
  /\ (forall w, reachable pwd_context w -> one_rating_per_pair (db w))
  /\ (forall w user_id product_id,
        reachable pwd_context w ->
        (length (ratings_of_pair user_id product_id (db w)) <= 1)%nat).
Proof.
  assert (Hreach : forall w, reachable pwd_context w ->
                             one_rating_per_pair (db w)).
  { induction 1 as [|w tok salt random req _ IH].
    - constructor.
    - now apply handle_one_rating_per_pair. }
  split; [intros; now apply handle_one_rating_per_pair|].
  split; [exact Hreach|].
  intros w user_id product_id Hw. specialize (Hreach w Hw).
  unfold one_rating_per_pair in Hreach. unfold ratings_of_pair.
  induction (ratings (db w)) as [|r rs IH]; simpl; [lia|].
  inversion Hreach as [|? ? Hnotin Hnd]; subst.
  specialize (IH Hnd).
  destruct ((Rating.user_id r =? user_id)
            && (Rating.product_id r =? product_id)) eqn:E; [|exact IH].
  simpl. destruct (List.filter _ rs) as [|r' rs'] eqn:Ef; [simpl; lia|].
  exfalso. apply Hnotin.
  assert (Hin : In r' (List.filter
                         (fun r => (Rating.user_id r =? user_id)
                                   && (Rating.product_id r =? product_id))
                         rs)) by (rewrite Ef; now left).
  apply List.filter_In in Hin as [Hin Hc].
  apply in_map_iff. exists r'. split; [|exact Hin].
  unfold rating_key. f_equal; lia.
Qed.

(** The uniqueness constraint holds the invariant on its own: an insert keeps
    it whatever the checks saw, and so does the race of two requests. *)
Lemma rate_product_insert_one_rating_per_pair user_id product_id w :
  one_rating_per_pair (db w) ->
  one_rating_per_pair (db (snd (rate_product_insert user_id product_id w))).
Proof.
  intros Hinv. unfold rate_product_insert, add_rating.
  destruct (existsb _ (ratings (db w))) eqn:E; [exact Hinv|]. simpl.
  destruct (db w) as [us ps rs] eqn:Edb. simpl in *.
  apply (one_rating_per_pair_add us ps rs); [exact Hinv|]. simpl.
  apply rating_query_none, existsb_first. exact E.
Qed.

Lemma rate_product_race_one_rating_per_pair product_id user1 user2 w :
  one_rating_per_pair (db w) ->
  one_rating_per_pair
    (db (snd (rate_product_race product_id user1 user2 w))).
Proof.
  intros Hinv. unfold rate_product_race.
  pose proof (fun u p => rate_product_insert_one_rating_per_pair u p w Hinv)
    as H1.
  destruct (rate_product_check product_id user1 (db w)) as [r1|u1 p1];
    destruct (rate_product_check product_id user2 (db w)) as [r2|u2 p2];
    simpl; try exact Hinv.
  - destruct (rate_product_insert u2 p2 w) as [r w2] eqn:E2.
    specialize (H1 u2 p2). now rewrite E2 in H1.
  - destruct (rate_product_insert u1 p1 w) as [r w1] eqn:E1.
    specialize (H1 u1 p1). now rewrite E1 in H1.
  - destruct (rate_product_insert u1 p1 w) as [r w1] eqn:E1.
    specialize (H1 u1 p1). rewrite E1 in H1. simpl in H1.
    pose proof (rate_product_insert_one_rating_per_pair u2 p2 w1 H1) as H2.
    destruct (rate_product_insert u2 p2 w1) as [r' w2] eqn:E2. exact H2.
Qed.

(** ** Product keys stay distinct *)

Lemma NoDup_map_filter {A : Type} (f : A -> Z) (c : A -> bool) (l : list A) :
  List.NoDup (map f l) -> List.NoDup (map f (List.filter c l)).
Proof.
  induction l as [|x l IH]; simpl; intros Hnd; [constructor|].
  inversion Hnd as [|? ? Hx Hnd']; subst.
  destruct (c x); simpl; [|now apply IH].
  constructor; [|now apply IH].
  intros Hin. apply Hx. apply in_map_iff in Hin as (y & Hy & Hin).
  apply List.filter_In in Hin as [Hin _].
  rewrite <- Hy. now apply in_map.
Qed.

Lemma add_product_ids_unique name description price stock image random
    current_user w :
  product_ids_unique (db w) ->
  product_ids_unique
    (db (snd (add_product name description price stock image random
                          current_user w))).
Proof.
  unfold add_product, add_product_row, product_ids_unique. intros H.
  destruct current_user as [user|]; [|exact H].
  destruct image as [[[|c fn]|] bytes]; cbn [filename file]; try exact H.
  destruct (open_wb _ _ _); [exact H|].
  destruct (integer_column stock); [|exact H].
  cbn [snd db products]. rewrite map_app. simpl. apply NoDup_snoc; [exact H|].
  intros Hin. apply next_id_above in Hin. lia.
Qed.

Lemma edit_product_commit_ids_unique product_id product' images w :
  product_ids_unique (db w) ->
  product_ids_unique
    (db (snd (edit_product_commit product_id product' images w))).
Proof.
  unfold edit_product_commit, update_product, product_ids_unique. intros H.
  destruct (integer_column _); [|exact H].
  cbn [snd db products]. rewrite map_map.
  erewrite map_ext_in; [exact H|].
  intros q _. cbn beta.
  destruct (Product.id q =? Product.id product') eqn:E; [lia|reflexivity].
Qed.

Lemma edit_product_ids_unique product_id name description price stock image
    random current_user w :
  product_ids_unique (db w) ->
  product_ids_unique
    (db (snd (edit_product product_id name description price stock image
                           random current_user w))).
Proof.
  unfold edit_product. intros H.
  destruct current_user as [user|]; [|exact H].
  destruct (owned_product product_id user (db w)) as [product|]; [|exact H].
  destruct image as [[[[|c fn]|] bytes]|];
    try (now apply edit_product_commit_ids_unique).
  destruct (open_wb _ _ _); [exact H|].
  now apply edit_product_commit_ids_unique.
Qed.

Lemma delete_product_ids_unique product_id current_user w :
  product_ids_unique (db w) ->
  product_ids_unique (db (snd (delete_product product_id current_user w))).
Proof.
  unfold delete_product, delete_product_row, product_ids_unique. intros H.
  destruct current_user as [user|]; [|exact H].
  destruct (owned_product product_id user (db w)) as [product|]; [|exact H].
  destruct (product_ratings (Product.id product) (db w)); simpl; [|exact H].
  now apply NoDup_map_filter.
Qed.

Lemma handle_product_ids_unique pwd_context session_token salt random req w :
  product_ids_unique (db w) ->
  product_ids_unique
    (db (snd (handle pwd_context session_token salt random req w))).
Proof.
  intros H.
  destruct req; cbv beta iota zeta delta [handle];
    try (now apply add_product_ids_unique);
    try (now apply edit_product_ids_unique);
    try (now apply delete_product_ids_unique);
    unfold product_ids_unique in *;
    match goal with
    | |- List.NoDup (map _ (products (db (snd ?x)))) =>
        replace (products (db (snd x))) with (products (db w)); [exact H|]
    end;
    unfold register, login, register_user, login_user, logout, read_products,
      add_product_form, product_detail, edit_product_form, user_detail,
      rate_product, rate_product_insert, add_rating, add_user, open_session;
    repeat case_match; simplify_eq; reflexivity.
Qed.

Lemma reachable_product_ids_unique pwd_context w :
  reachable pwd_context w -> product_ids_unique (db w).
Proof.
  induction 1 as [|w tok salt random req _ IH].
  - constructor.
  - now apply handle_product_ids_unique.
Qed.

(** ** The run, step by step *)

Example run_users_and_products :
  users (db world_rated) = [ana; beto]
  /\ products (db world_rated) = [mesa]
  /\ ratings (db world_rated) = [Rating.mk 1 2 1]
  /\ get_current_user (Some token_ana) world_rated = Some ana
  /\ get_current_user (Some token_beto) world_rated = Some beto
  /\ get_current_user (Some "") world_rated = None
  /\ get_current_user None world_rated = None.
Proof. repeat split; vm_compute; reflexivity. Qed.

Example run_rate_twice :
  fst (handle demo_crypt (Some token_beto) "salt" 0 (POST_rate_product 1)
              world_rated)
  = HTTPException 400 "Ya has puntuado este producto"
  /\ rating_count 1 (db world_beto) = 0%nat
  /\ rating_count 1 (db world_rated) = 1%nat.
Proof. repeat split; vm_compute; reflexivity. Qed.

Example run_reachable : reachable demo_crypt world_rated.
Proof. repeat apply reachable_request. apply reachable_start. Qed.

Example run_ranking :
  fst (read_products None
         (run (Some token_ana) 8
              (POST_add_product "silla" "de pino" 4%float 2 mesa_png)
              world_rated))
  = TemplateResponse
      (index_html
         [(mesa, 1%nat);
          (Product.mk 2 "silla" "de pino" 4%float 2
                      "00000000-0000-4000-8000-000000000008_mesa.png" 1,
           0%nat)]
         None).
Proof. vm_compute. reflexivity. Qed.

Example sort_reverse_keeps_ties :
  sort_reverse snd [("a", 1%nat); ("b", 3%nat); ("c", 1%nat); ("d", 3%nat)]
  = [("b", 3%nat); ("d", 3%nat); ("a", 1%nat); ("c", 1%nat)].
Proof. reflexivity. Qed.

Example run_register_conflict :
  fst (handle demo_crypt None "salt" 3
              (POST_register "ana" "otra@x.org" "pw" "557") world_rated)
  = TemplateResponse
      (register_html (Some "El usuario o el correo ya existen"))
  /\ fst (handle demo_crypt None "salt" 3
                 (POST_register "carla" "beto@x.org" "pw" "557") world_rated)
     = TemplateResponse
         (register_html (Some "El usuario o el correo ya existen")).
Proof. split; vm_compute; reflexivity. Qed.

Example run_rate_failures :
  fst (handle demo_crypt None "salt" 0 (POST_rate_product 1) world_rated)
  = HTTPException 401 "Debes iniciar sesi√≥n para puntuar un producto"
  /\ fst (handle demo_crypt (Some token_ana) "salt" 0 (POST_rate_product 9)
                 world_rated)
     = HTTPException 404 "Producto no encontrado".
Proof. split; vm_compute; reflexivity. Qed.

(** * Further properties of the handlers *)

(** ** Sessions *)

(** X1: who the current user is.  No cookie, an empty cookie, a token that is
    not in [sessions], and a token whose user id matches no row all give the
    anonymous requester; a resolved user is a row of users whose id is what
    [sessions] holds for the token. *)
Theorem get_current_user_cases (w : World) :
  get_current_user None w = None
  /\ get_current_user (Some "") w = None
  /\ (forall token,
        sessions w !! token = None ->
        get_current_user (Some token) w = None)
  /\ (forall token user_id,
        sessions w !! token = Some user_id ->
        ~ user_exists user_id (db w) ->
        get_current_user (Some token) w = None)
  /\ (forall session_token user,
        get_current_user session_token w = Some user ->
        In user (users (db w))
        /\ exists token,
             session_token = Some token /\ token <> ""
             /\ sessions w !! token = Some (User.id user)).
Proof.
  split; [reflexivity|]. split; [reflexivity|]. split; [|split].
  - intros token H. unfold get_current_user. rewrite H.
    now destruct (truthy (Some token)).
  - intros token user_id H Hno. unfold get_current_user. rewrite H.
    destruct (truthy (Some token)); [|reflexivity].
    destruct (first _ (users (db w))) as [u|] eqn:E; [|reflexivity].
    apply first_some in E as [Hin Hid]. exfalso. apply Hno.
    exists u. split; [exact Hin|lia].
  - intros [token|] user; [|discriminate]. unfold get_current_user.
    destruct token as [|c token']; [discriminate|]. simpl.
    destruct (sessions w !! String c token') as [user_id|] eqn:Es;
      [|discriminate].
    intros E. apply first_some in E as [Hin Hid].
    split; [exact Hin|]. eexists. split; [reflexivity|].
    split; [discriminate|]. rewrite Es. f_equal. lia.
Qed.

Lemma get_current_user_sessions_ext session_token w w' :
  db w' = db w ->
  (forall token, session_token = Some token ->
                 sessions w' !! token = sessions w !! token) ->
  get_current_user session_token w' = get_current_user session_token w.
Proof.
  intros Hdb Hs. unfold get_current_user.
  destruct session_token as [token|]; [|reflexivity].
  rewrite Hdb, (Hs token eq_refl). reflexivity.
Qed.

(** X2: logout revokes the token of the cookie and nothing else.  Afterwards
    that token is anonymous, every other token resolves as before, the tables
    and the files are untouched, and logging out again changes nothing. *)
Theorem logout_revokes (session_token : option string) (w : World) :
  fst (logout session_token w)
  = RedirectResponse "/" (delete_cookie "session_token")
  /\ get_current_user session_token (snd (logout session_token w)) = None
  /\ (forall other,
        other <> session_token ->
        get_current_user other (snd (logout session_token w))
        = get_current_user other w)
  /\ db (snd (logout session_token w)) = db w
  /\ static_images (snd (logout session_token w)) = static_images w
  /\ snd (logout session_token (snd (logout session_token w)))
     = snd (logout session_token w).
Proof.
  split; [reflexivity|].
  destruct session_token as [[|c token]|]; simpl.
  - repeat split; intros; now apply get_current_user_sessions_ext.
  - destruct (sessions w !! String c token) as [user_id|] eqn:Es; simpl.
    + split; [now rewrite lookup_delete_eq|].
      split; [|split; [reflexivity|split; [reflexivity|]]].
      * intros other Hne. apply get_current_user_sessions_ext;
          [reflexivity|].
        intros token' ->. simpl. apply lookup_delete_ne. congruence.
      * now rewrite lookup_delete_eq.
    + split; [now rewrite Es|].
      split; [|split; [reflexivity|split; [reflexivity|]]].
      * intros other _. now apply get_current_user_sessions_ext.
      * now rewrite Es.
  - repeat split; intros; now apply get_current_user_sessions_ext.
Qed.

Lemma NoDup_map_eq {A B : Type} (f : A -> B) (l : list A) (a b : A) :
  List.NoDup (map f l) -> In a l -> In b l -> f a = f b -> a = b.
Proof.
  induction l as [|y l IH]; simpl; [tauto|].
  intros Hnd Ha Hb Hf. inversion Hnd as [|? ? Hnotin Hnd']; subst.
  destruct Ha as [->|Ha], Hb as [->|Hb]; auto.
  - exfalso. apply Hnotin. rewrite Hf. now apply in_map.
  - exfalso. apply Hnotin. rewrite <- Hf. now apply in_map.
Qed.

Lemma first_the_only {A : Type} (c : A -> bool) (rows : list A) (x : A) :
  (forall y, In y rows -> c y = true -> y = x) ->
  In x rows -> c x = true -> first c rows = Some x.
Proof.
  intros Honly Hin Hc.
  destruct (first_is_some c rows x Hin Hc) as [y Hy]. rewrite Hy.
  apply first_some in Hy as [Hy Hcy]. f_equal. now apply Honly.
Qed.

Lemma user_by_id s user :
  users_unique s -> In user (users s) ->
  first (fun u => User.id u =? User.id user) (users s) = Some user.
Proof.
  intros (Hid & _ & _) Hin. apply first_the_only; [|exact Hin|apply Z.eqb_refl].
  intros y Hy Hc. apply (NoDup_map_eq User.id (users s)); auto. lia.
Qed.

Lemma user_by_username s user :
  users_unique s -> In user (users s) ->
  first (fun u => String.eqb (User.username u) (User.username user))
        (users s) = Some user.
Proof.
  intros (_ & Hname & _) Hin.
  apply first_the_only; [|exact Hin|apply String.eqb_refl].
  intros y Hy Hc. apply String.eqb_eq in Hc.
  now apply (NoDup_map_eq User.username (users s)).
Qed.

(** X3: a login is turned down, with the message for wrong credentials and
    without any change or session, whenever no user of that name has a hash
    that the password verifies against: an unknown username and a wrong
    password look the same. *)
Theorem login_user_rejects (pwd_context : CryptContext)
    (username password : string) (random : N) (w : World) :
  (forall u, In u (users (db w)) -> User.username u = username ->
             pwd_verify pwd_context password (User.hashed_password u)
             = false) ->
  login_user pwd_context username password random w
  = (TemplateResponse (login_html (Some "Credenciales incorrectas")), w).
Proof.
  intros H. unfold login_user.
  destruct (first _ (users (db w))) as [user|] eqn:E; [|reflexivity].
  apply first_some in E as [Hin Hname]. apply String.eqb_eq in Hname.
  now rewrite (H user Hin Hname).
Qed.

(** Beto's password is not Ana's, and nobody is called Carla. *)
Lemma login_user_rejects_witness :
  login_user demo_crypt "carla" "pw" 5 world_rated
  = (TemplateResponse (login_html (Some "Credenciales incorrectas")),
     world_rated)
  /\ login_user demo_crypt "ana" "wrong" 5 world_rated
     = (TemplateResponse (login_html (Some "Credenciales incorrectas")),
        world_rated).
Proof.
  split; apply login_user_rejects; intros u Hu Hname;
    vm_compute in Hu; destruct Hu as [<-|[<-|[]]];
    try discriminate Hname; vm_compute; reflexivity.
Defined.

(** X4: with distinct user keys and names, a login with the name of a user
    and a password that verifies against that user's hash opens a session:
    the cookie carries the drawn token, the token resolves to that very user,
    earlier sessions under other tokens stay, and tables and files are
    untouched. *)
Theorem login_user_accepts (pwd_context : CryptContext) (user : User.t)
    (password : string) (random : N) (w : World) :
  users_unique (db w) ->
  In user (users (db w)) ->
  pwd_verify pwd_context password (User.hashed_password user) = true ->
  fst (login_user pwd_context (User.username user) password random w)
  = RedirectResponse "/"
      (set_cookie "session_token" (str_uuid (uuid4 random)))
  /\ get_current_user (Some (str_uuid (uuid4 random)))
       (snd (login_user pwd_context (User.username user) password random w))
     = Some user
  /\ (forall token,
        token <> str_uuid (uuid4 random) ->
        get_current_user (Some token)
          (snd (login_user pwd_context (User.username user) password
                           random w))
        = get_current_user (Some token) w)
  /\ db (snd (login_user pwd_context (User.username user) password random w))
     = db w
  /\ static_images
       (snd (login_user pwd_context (User.username user) password random w))
     = static_images w.
Proof.
  intros Huniq Hin Hverify. unfold login_user.
  rewrite (user_by_username _ _ Huniq Hin), Hverify.
  unfold open_session. cbn [fst snd]. split; [reflexivity|]. split; [|split].
  - unfold get_current_user. rewrite str_uuid_truthy. cbn [sessions db].
    rewrite lookup_insert_eq. now apply user_by_id.
  - intros token Hne. apply get_current_user_sessions_ext; [reflexivity|].
    intros token' [= <-]. simpl. apply lookup_insert_ne. congruence.
  - split; reflexivity.
Qed.

(** Ana logs in again and is Ana under the new token. *)
Lemma login_user_accepts_witness :
  get_current_user (Some (str_uuid (uuid4 5)))
    (snd (login_user demo_crypt "ana" "pw" 5 world_rated))
  = Some ana.
Proof.
  destruct (login_user_accepts demo_crypt ana "pw" 5 world_rated)
    as (_ & H & _).
  - vm_compute. repeat split; repeat constructor; simpl; intuition discriminate.
  - vm_compute. left. reflexivity.
  - vm_compute. reflexivity.
  - exact H.
Defined.

(** ** What a request does to the tables *)

Lemma store_change_same s : store_change s s.
Proof. destruct s as [us ps rs]. apply (change_nothing (mkStore us ps rs)). Qed.

Lemma current_user_exists session_token w user :
  get_current_user session_token w = Some user ->
  In user (users (db w)).
Proof.
  unfold get_current_user.
  destruct session_token as [token|]; [|discriminate].
  destruct (truthy (Some token)); [|discriminate].
  destruct (sessions w !! token); [|discriminate].
  intros E. now apply first_some in E.
Qed.

Lemma register_user_change pwd_context username email password whatsapp salt
    random w :
  store_change (db w)
    (db (snd (register_user pwd_context username email password whatsapp
                            salt random w))).
Proof.
  unfold register_user.
  destruct (first _ (users (db w))) as [u|] eqn:E; [apply store_change_same|].
  unfold add_user.
  destruct (existsb _ (users (db w))); [apply store_change_same|].
  destruct (existsb _ (users (db w))); [apply store_change_same|].
  unfold open_session. simpl.
  apply (change_add_user (db w)
           (User.mk (next_id (map User.id (users (db w)))) username email
                    (pwd_hash pwd_context salt password) whatsapp));
    [reflexivity|].
  intros v Hv. rewrite first_none in E. specialize (E v Hv). simpl in *.
  apply orb_false_elim in E as [E1 E2].
  apply String.eqb_neq in E1, E2. split; assumption.
Qed.

Lemma login_user_change pwd_context username password random w :
  store_change (db w)
    (db (snd (login_user pwd_context username password random w))).
Proof.
  unfold login_user, open_session.
  repeat case_match; simpl; apply store_change_same.
Qed.

Lemma add_product_change name description price stock image random user w :
  In user (users (db w)) ->
  store_change (db w)
    (db (snd (add_product name description price stock image random
                          (Some user) w))).
Proof.
  intros Hin. unfold add_product, add_product_row.
  destruct image as [[[|c fn]|] bytes]; cbn [filename file];
    try apply store_change_same.
  destruct (open_wb _ _ _); [apply store_change_same|].
  destruct (integer_column stock); [|apply store_change_same].
  cbn [snd db].
  apply (change_add_product (db w)
           (Product.mk (next_id (map Product.id (products (db w)))) name
                       description price stock
                       (str_uuid (uuid4 random) +:+ "_" +:+ String c fn)
                       (User.id user)));
    [reflexivity|].
  now exists user.
Qed.

Lemma edit_product_commit_change product_id product product' images w :
  In product (products (db w)) ->
  Product.id product' = Product.id product ->
  Product.owner_id product' = Product.owner_id product ->
  store_change (db w)
    (db (snd (edit_product_commit product_id product' images w))).
Proof.
  intros Hin Hid Howner. unfold edit_product_commit, update_product.
  destruct (integer_column _); [|apply store_change_same].
  cbn [snd db]. rewrite Hid.
  now apply (change_edit_product (db w) product product').
Qed.

Lemma edit_product_change product_id name description price stock image
    random current_user w :
  store_change (db w)
    (db (snd (edit_product product_id name description price stock image
                           random current_user w))).
Proof.
  unfold edit_product.
  destruct current_user as [user|]; [|apply store_change_same].
  destruct (owned_product product_id user (db w)) as [product|] eqn:Hown;
    [|apply store_change_same].
  apply owned_product_some in Hown as (Hin & _ & _).
  destruct image as [[[[|c fn]|] bytes]|];
    try (now apply (edit_product_commit_change _ product)).
  destruct (open_wb _ _ _); [apply store_change_same|].
  now apply (edit_product_commit_change _ product).
Qed.

Lemma delete_product_change product_id current_user w :
  store_change (db w) (db (snd (delete_product product_id current_user w))).
Proof.
  unfold delete_product, delete_product_row.
  destruct current_user as [user|]; [|apply store_change_same].
  destruct (owned_product product_id user (db w)) as [product|] eqn:Hown;
    [|apply store_change_same].
  apply owned_product_some in Hown as (Hin & _ & _).
  destruct (product_ratings (Product.id product) (db w)) eqn:Er; simpl;
    [|apply store_change_same].
  now apply (change_delete_product (db w) product).
Qed.

Lemma rate_product_change product_id current_user w :
  (forall user, current_user = Some user -> In user (users (db w))) ->
  store_change (db w) (db (snd (rate_product product_id current_user w))).
Proof.
  intros Hcu. unfold rate_product, rate_product_check.
  destruct current_user as [user|]; [|apply store_change_same].
  destruct (first _ (products (db w))) as [p|] eqn:Ep;
    [|apply store_change_same].
  destruct (first _ (ratings (db w))) as [r|] eqn:Er;
    [apply store_change_same|].
  unfold rate_product_insert, add_rating.
  pose proof Er as Ee. apply existsb_first in Ee. rewrite Ee. simpl.
  apply (change_add_rating (db w)
           (Rating.mk (next_id (map Rating.id (ratings (db w))))
                      (User.id user) product_id)); simpl.
  - reflexivity.
  - exists user. split; [now apply Hcu|reflexivity].
  - apply first_some in Ep as [Hin Hid]. exists p. split; [exact Hin|lia].
  - now apply rating_query_none.
Qed.

Lemma handle_store_change pwd_context session_token salt random req w :
  store_change (db w)
    (db (snd (handle pwd_context session_token salt random req w))).
Proof.
  pose proof (current_user_exists session_token w) as Hcu.
  destruct req; cbv beta iota zeta delta [handle].
  - apply store_change_same.
  - apply register_user_change.
  - apply store_change_same.
  - apply login_user_change.
  - apply store_change_same.
  - apply store_change_same.
  - unfold add_product_form. case_match; apply store_change_same.
  - destruct (get_current_user session_token w) as [user|] eqn:E.
    + apply add_product_change. now apply Hcu.
    + apply store_change_same.
  - unfold product_detail. case_match; apply store_change_same.
  - unfold edit_product_form. repeat case_match; apply store_change_same.
  - apply edit_product_change.
  - apply delete_product_change.
  - unfold user_detail. case_match; apply store_change_same.
  - apply rate_product_change. exact Hcu.
Qed.

(** ** Keys and references *)

Lemma NoDup_snoc_fresh_id (ids : list Z) :
  List.NoDup ids -> List.NoDup (ids ++ [next_id ids]).
Proof.
  intros H. apply NoDup_snoc; [exact H|].
  intros Hin. apply next_id_above in Hin. lia.
Qed.

Lemma store_change_users_unique s s' :
  store_change s s' -> users_unique s -> users_unique s'.
Proof.
  intros Hc Hu. destruct Hc as [|u Hid Hfree| | | |]; try exact Hu.
  destruct Hu as (Hids & Hnames & Hemails).
  unfold users_unique. simpl. rewrite !map_app. simpl.
  split; [|split].
  - rewrite Hid. now apply NoDup_snoc_fresh_id.
  - apply NoDup_snoc; [exact Hnames|].
    intros Hin. apply in_map_iff in Hin as (v & Hv & Hin).
    destruct (Hfree v Hin) as [H1 H2]. tauto.
  - apply NoDup_snoc; [exact Hemails|].
    intros Hin. apply in_map_iff in Hin as (v & Hv & Hin).
    destruct (Hfree v Hin) as [H1 H2]. tauto.
Qed.

Lemma store_change_product_ids_unique s s' :
  store_change s s' -> product_ids_unique s -> product_ids_unique s'.
Proof.
  intros Hc Hu. destruct Hc as [| |p Hid _|p p' _ Hid _|p _ _|]; try exact Hu;
    unfold product_ids_unique in *; simpl.
  - rewrite map_app. simpl. rewrite Hid. now apply NoDup_snoc_fresh_id.
  - rewrite map_map. erewrite map_ext_in; [exact Hu|].
    intros q _. simpl.
    destruct (Product.id q =? Product.id p) eqn:E; [lia|reflexivity].
  - now apply NoDup_map_filter.
Qed.

Lemma store_change_rating_ids_unique s s' :
  store_change s s' -> rating_ids_unique s -> rating_ids_unique s'.
Proof.
  intros Hc Hu. destruct Hc as [| | | | |r Hid _ _ _]; try exact Hu.
  unfold rating_ids_unique in *. simpl. rewrite map_app. simpl.
  rewrite Hid. now apply NoDup_snoc_fresh_id.
Qed.

Lemma store_change_references s s' :
  store_change s s' -> references_hold s -> references_hold s'.
Proof.
  intros Hc [Hr Hp].
  destruct Hc as [|u _ _|p _ Howner|p p' Hin Hid Howner|p Hin Hnone
                  |r _ Huser Hproduct _];
    unfold references_hold, user_exists, product_exists in *; simpl.
  - split; assumption.
  - split.
    + intros r Hin. destruct (Hr r Hin) as [(v & Hv & Hid) Hpr].
      split; [|exact Hpr]. exists v. split; [|exact Hid].
      apply in_or_app. now left.
    + intros p Hin. destruct (Hp p Hin) as (v & Hv & Hid).
      exists v. split; [|exact Hid]. apply in_or_app. now left.
  - split.
    + intros r Hin. destruct (Hr r Hin) as [Hu (q & Hq & Hid)].
      split; [exact Hu|]. exists q. split; [|exact Hid].
      apply in_or_app. now left.
    + intros q Hin. apply in_app_or in Hin as [Hin|[<-|[]]];
        [now apply Hp|exact Howner].
  - split.
    + intros r Hinr. destruct (Hr r Hinr) as [Hu (q & Hq & Hidq)].
      split; [exact Hu|].
      exists (if Product.id q =? Product.id p then p' else q). split.
      * apply in_map_iff. now exists q.
      * destruct (Product.id q =? Product.id p) eqn:E; [lia|exact Hidq].
    + intros q Hinq. apply in_map_iff in Hinq as (q0 & Hq0 & Hin0).
      destruct (Product.id q0 =? Product.id p); subst q.
      * rewrite Howner. now apply Hp.
      * now apply Hp.
  - split.
    + intros r Hinr. destruct (Hr r Hinr) as [Hu (q & Hq & Hidq)].
      split; [exact Hu|]. exists q. split; [|exact Hidq].
      apply List.filter_In. split; [exact Hq|].
      destruct (Product.id q =? Product.id p) eqn:E; [|reflexivity].
      exfalso.
      assert (Hrin : In r (product_ratings (Product.id p) s)).
      { unfold product_ratings. apply List.filter_In.
        split; [exact Hinr|lia]. }
      rewrite Hnone in Hrin. exact Hrin.
    + intros q Hinq. apply List.filter_In in Hinq as [Hinq _].
      now apply Hp.
  - split.
    + intros r0 Hin0. apply in_app_or in Hin0 as [Hin0|[<-|[]]];
        [now apply Hr|]. split; assumption.
    + exact Hp.
Qed.

(** X5: primary keys stay distinct in all three tables, and so do usernames
    and emails: every request keeps this, so it holds in every world the
    application reaches from the empty start. *)
Theorem keys_stay_unique (pwd_context : CryptContext) :
  (forall session_token salt random req w,
     users_unique (db w) /\ product_ids_unique (db w)
     /\ rating_ids_unique (db w) ->
     let w' := snd (handle pwd_context session_token salt random req w) in
     users_unique (db w') /\ product_ids_unique (db w')
     /\ rating_ids_unique (db w'))
  /\ (forall w,
        reachable pwd_context w ->
        users_unique (db w) /\ product_ids_unique (db w)
        /\ rating_ids_unique (db w)).
Proof.
  assert (Hstep : forall session_token salt random req w,
     users_unique (db w) /\ product_ids_unique (db w)
     /\ rating_ids_unique (db w) ->
     let w' := snd (handle pwd_context session_token salt random req w) in
     users_unique (db w') /\ product_ids_unique (db w')
     /\ rating_ids_unique (db w')).
  { intros tok salt random req w (Hu & Hp & Hr). cbv zeta.
    pose proof (handle_store_change pwd_context tok salt random req w) as Hc.
    split; [|split].
    - now apply (store_change_users_unique _ _ Hc).
    - now apply (store_change_product_ids_unique _ _ Hc).
    - now apply (store_change_rating_ids_unique _ _ Hc). }
  split; [exact Hstep|].
  induction 1 as [|w tok salt random req _ IH].
  - repeat split; constructor.
  - now apply Hstep.
Qed.

(** X6: the foreign keys of models.py hold without the store enforcing them:
    every request keeps "each rating refers to an existing user and an
    existing product, each product to an existing owner", so this holds in
    every reachable world.  A product that is referenced by a rating is never
    removed, and users are never removed. *)
Theorem references_stay_valid (pwd_context : CryptContext) :
  (forall session_token salt random req w,
     references_hold (db w) ->
     references_hold
       (db (snd (handle pwd_context session_token salt random req w))))
  /\ (forall w, reachable pwd_context w -> references_hold (db w)).
Proof.
  assert (Hstep : forall session_token salt random req w,
     references_hold (db w) ->
     references_hold
       (db (snd (handle pwd_context session_token salt random req w)))).
  { intros tok salt random req w.
    apply store_change_references, handle_store_change. }
  split; [exact Hstep|].
  induction 1 as [|w tok salt random req _ IH].
  - split; intros x [].
  - now apply Hstep.
Qed.

(** X7: users and ratings are append-only.  Whatever the request, the users
    table afterwards is the one before with at most one row added at the
    end, and so is the ratings table: no handler edits or removes a user or
    a rating. *)
Theorem users_and_ratings_append_only (pwd_context : CryptContext)
    (session_token : option string) (salt : string) (random : N)
    (req : Request) (w : World) :
  (exists us,
     users (db (snd (handle pwd_context session_token salt random req w)))
     = (users (db w) ++ us)%list /\ (length us <= 1)%nat)
  /\ (exists rs,
        ratings (db (snd (handle pwd_context session_token salt random req
                                 w)))
        = (ratings (db w) ++ rs)%list /\ (length rs <= 1)%nat).
Proof.
  destruct (handle_store_change pwd_context session_token salt random req w)
    as [|u _ _|p _ _|p p' _ _ _|p _ _|r _ _ _ _]; simpl.
  - split; exists []; rewrite app_nil_r; auto.
  - split; [exists [u]|exists []; rewrite app_nil_r]; auto.
  - split; exists []; rewrite app_nil_r; auto.
  - split; exists []; rewrite app_nil_r; auto.
  - split; exists []; rewrite app_nil_r; auto.
  - split; [exists []; rewrite app_nil_r|exists [r]]; auto.
Qed.

(** ** Registration, then login *)

Lemma register_user_free pwd_context username email password whatsapp salt
    random w :
  (forall u, In u (users (db w)) ->
             User.username u <> username /\ User.email u <> email) ->
  register_user pwd_context username email password whatsapp salt random w
  = open_session
      (User.mk (next_id (map User.id (users (db w)))) username email
               (pwd_hash pwd_context salt password) whatsapp)
      random
      (mkStore (users (db w)
                ++ [User.mk (next_id (map User.id (users (db w)))) username
                            email (pwd_hash pwd_context salt password)
                            whatsapp])
               (products (db w)) (ratings (db w)))
      w.
Proof.
  intros Hfree. unfold register_user, add_user.
  assert (Hq : first (fun u => String.eqb (User.username u) username
                               || String.eqb (User.email u) email)
                     (users (db w)) = None).
  { apply first_none. intros u Hu. destruct (Hfree u Hu) as [H1 H2].
    apply String.eqb_neq in H1, H2. now rewrite H1, H2. }
  assert (Hn : existsb (fun u => String.eqb (User.username u) username)
                       (users (db w)) = false).
  { apply existsb_first, first_none. intros u Hu.
    apply String.eqb_neq. now apply Hfree. }
  assert (He : existsb (fun u => String.eqb (User.email u) email)
                       (users (db w)) = false).
  { apply existsb_first, first_none. intros u Hu.
    apply String.eqb_neq. now apply Hfree. }
  now rewrite Hq, Hn, He.
Qed.

(** X8: registration and login compose.  After a registration with a free
    name and email, a login with the same name and password (which verifies
    against the hash that registration stored) is accepted: it opens a second
    session whose token resolves to the registered user, and the token of
    the registration still resolves to that user too. *)
Theorem register_then_login (pwd_context : CryptContext)
    (username email password whatsapp salt : string) (random random' : N)
    (w : World) :
  (forall u, In u (users (db w)) ->
             User.username u <> username /\ User.email u <> email) ->
  pwd_verify pwd_context password (pwd_hash pwd_context salt password)
  = true ->
  exists user,
    User.username user = username
    /\ fst (login_user pwd_context username password random'
              (snd (register_user pwd_context username email password
                                  whatsapp salt random w)))
       = RedirectResponse "/"
           (set_cookie "session_token" (str_uuid (uuid4 random')))
    /\ get_current_user (Some (str_uuid (uuid4 random')))
         (snd (login_user pwd_context username password random'
                 (snd (register_user pwd_context username email password
                                     whatsapp salt random w))))
       = Some user
    /\ get_current_user (Some (str_uuid (uuid4 random)))
         (snd (login_user pwd_context username password random'
                 (snd (register_user pwd_context username email password
                                     whatsapp salt random w))))
       = Some user.
Proof.
  intros Hfree Hverify.
  rewrite (register_user_free _ _ _ _ _ _ _ _ Hfree).
  set (user := User.mk (next_id (map User.id (users (db w)))) username email
                       (pwd_hash pwd_context salt password) whatsapp).
  exists user. split; [reflexivity|].
  assert (Hname : first (fun u => String.eqb (User.username u) username)
                        (users (db w) ++ [user]) = Some user).
  { apply first_app_last; [|apply String.eqb_refl].
    intros u Hu. apply String.eqb_neq. now apply Hfree. }
  assert (Hid : first (fun u => User.id u =? User.id user)
                      (users (db w) ++ [user]) = Some user).
  { apply first_app_last; [|apply Z.eqb_refl].
    intros u Hu. simpl.
    assert (User.id u < next_id (map User.id (users (db w)))); [|lia].
    apply next_id_above. now apply in_map. }
  unfold login_user, open_session. cbn [snd db users]. rewrite Hname.
  cbn [User.hashed_password user]. unfold user at 1.
  cbn [User.hashed_password]. rewrite Hverify. cbn [fst snd].
  split; [reflexivity|].
  unfold get_current_user. rewrite !str_uuid_truthy.
  cbn [sessions db users].
  rewrite lookup_insert_eq. split; [exact Hid|].
  rewrite lookup_insert. case_decide; [exact Hid|].
  rewrite lookup_insert_eq. exact Hid.
Qed.

(** Carla registers and logs in. *)
Lemma register_then_login_witness :
  exists user,
    User.username user = "carla"
    /\ get_current_user (Some (str_uuid (uuid4 4)))
         (snd (login_user demo_crypt "carla" "pw" 4
                 (snd (register_user demo_crypt "carla" "carla@x.org" "pw"
                                     "557" "salt" 3 world_rated))))
       = Some user.
Proof.
  destruct (register_then_login demo_crypt "carla" "carla@x.org" "pw" "557"
                                "salt" 3 4 world_rated)
    as (user & Hname & _ & H & _).
  - intros u Hu. vm_compute in Hu. destruct Hu as [<-|[<-|[]]];
      split; discriminate.
  - vm_compute. reflexivity.
  - exists user. split; assumption.
Defined.

(** ** Who can change what *)

Ltac unfold_handlers :=
  unfold register, login, register_user, login_user, logout, read_products,
    add_product_form, add_product, product_detail, edit_product_form,
    edit_product, edit_product_commit, delete_product, user_detail, rate_product,
    rate_product_check, rate_product_insert, add_rating, add_user,
    add_product_row, delete_product_row, update_product, open_session.

(** X9: a request without a valid session changes neither the catalog, nor
    the ratings, nor the image files, whatever it asks for: the only things
    the anonymous requester can do to the world are to register, to log in
    and to log out. *)
Theorem anonymous_request_frame (pwd_context : CryptContext)
    (session_token : option string) (salt : string) (random : N)
    (req : Request) (w : World) :
  get_current_user session_token w = None ->
  products (db (snd (handle pwd_context session_token salt random req w)))
  = products (db w)
  /\ ratings (db (snd (handle pwd_context session_token salt random req w)))
     = ratings (db w)
  /\ static_images (snd (handle pwd_context session_token salt random req w))
     = static_images w
  /\ (session_route req = false ->
      snd (handle pwd_context session_token salt random req w) = w).
Proof.
  intros Hanon.
  destruct req; cbv beta iota zeta delta [handle]; rewrite ?Hanon;
    unfold_handlers; repeat case_match; simplify_eq; simpl;
    repeat split; try reflexivity; try discriminate.
Qed.

(** Nobody is logged in under the token "nobody". *)
Lemma anonymous_request_frame_witness :
  snd (handle demo_crypt (Some "nobody") "salt" 0 (POST_delete_product 1)
              world_rated)
  = world_rated.
Proof.
  destruct (anonymous_request_frame demo_crypt (Some "nobody") "salt" 0
                                    (POST_delete_product 1) world_rated)
    as (_ & _ & _ & H).
  - vm_compute. reflexivity.
  - apply H. reflexivity.
Defined.

Lemma handle_products_grow pwd_context session_token salt random req w :
  match req with
  | POST_edit_product _ _ _ _ _ _ | POST_delete_product _ => False
  | _ => True
  end ->
  exists ps,
    products (db (snd (handle pwd_context session_token salt random req w)))
    = (products (db w) ++ ps)%list.
Proof.
  intros Hreq.
  destruct req; try contradiction; cbv beta iota zeta delta [handle];
    try (exists []; rewrite app_nil_r; unfold_handlers;
         repeat case_match; simplify_eq; reflexivity).
  unfold add_product, add_product_row.
  destruct (get_current_user session_token w) as [user|];
    [|exists []; now rewrite app_nil_r].
  destruct image as [[[|c fn]|] bytes]; cbn [filename file];
    try (exists []; now rewrite app_nil_r).
  destruct (open_wb _ _ _); [exists []; now rewrite app_nil_r|].
  destruct (integer_column stock); [|exists []; now rewrite app_nil_r].
  eexists [_]. reflexivity.
Qed.

(** X10: with distinct product keys, no request changes or removes a product
    that the requester does not own.  Whatever the request and whoever sends
    it, a product row whose owner is not the current user is a row of the
    catalog afterwards, unchanged. *)
Theorem foreign_products_untouched (pwd_context : CryptContext)
    (session_token : option string) (salt : string) (random : N)
    (req : Request) (w : World) (q : Product.t) :
  product_ids_unique (db w) ->
  In q (products (db w)) ->
  (forall user, get_current_user session_token w = Some user ->
                Product.owner_id q <> User.id user) ->
  In q (products
          (db (snd (handle pwd_context session_token salt random req w)))).
Proof.
  intros Hpk Hq Hforeign.
  assert (Hother : forall user product_id product,
            get_current_user session_token w = Some user ->
            owned_product product_id user (db w) = Some product ->
            (Product.id q =? Product.id product) = false).
  { intros user product_id product Hcu Hown.
    apply owned_product_some in Hown as (Hin & _ & Howner).
    destruct (Product.id q =? Product.id product) eqn:E; [|reflexivity].
    exfalso. apply (Hforeign user Hcu).
    assert (q = product) as ->; [|exact Howner].
    apply (NoDup_map_same Product.id (products (db w))); auto. lia. }
  destruct req as [| | | | | | | | | |product_id name description price stock
                   image|product_id| |];
    try (match goal with
         | |- In q (products (db (snd (handle _ _ _ _ ?r _)))) =>
             destruct (handle_products_grow pwd_context session_token salt
                         random r w I) as [ps ->]
         end;
         apply in_or_app; now left);
    cbv beta iota zeta delta [handle].
  - unfold edit_product.
    destruct (get_current_user session_token w) as [user|] eqn:Hcu;
      [|exact Hq].
    destruct (owned_product product_id user (db w)) as [product|] eqn:Hown;
      [|exact Hq].
    assert (Hkeep : forall image' images,
              In q (products
                      (db (snd (edit_product_commit product_id
                                  (Product.mk (Product.id product) name
                                              description price stock image'
                                              (Product.owner_id product))
                                  images w))))).
    { intros image' images. unfold edit_product_commit, update_product.
      destruct (integer_column _); [|exact Hq].
      cbn [snd db products Product.id].
      apply in_map_iff. exists q. split; [|exact Hq].
      now rewrite (Hother user product_id product). }
    destruct image as [[[[|c fn]|] bytes]|]; try apply Hkeep.
    destruct (open_wb _ _ _); [exact Hq|apply Hkeep].
  - unfold delete_product, delete_product_row.
    destruct (get_current_user session_token w) as [user|] eqn:Hcu;
      [|exact Hq].
    destruct (owned_product product_id user (db w)) as [product|] eqn:Hown;
      [|exact Hq].
    destruct (product_ratings (Product.id product) (db w)); simpl;
      [|exact Hq].
    apply List.filter_In. split; [exact Hq|].
    now rewrite (Hother user product_id product).
Qed.

(** Beto asks to delete Ana's table: it stays. *)
Lemma foreign_products_untouched_witness :
  In mesa
     (products
        (db (snd (handle demo_crypt (Some token_beto) "salt" 0
                         (POST_delete_product 1) world_beto)))).
Proof.
  apply (foreign_products_untouched demo_crypt (Some token_beto) "salt" 0
                                    (POST_delete_product 1) world_beto mesa).
  - vm_compute. repeat constructor. simpl. tauto.
  - vm_compute. left. reflexivity.
  - intros user Hu. vm_compute in Hu. injection Hu as <-.
    vm_compute. discriminate.
Defined.

(** X11: what each kind of route leaves alone.  The seven GET routes that
    render a page change nothing at all; only register, login and logout
    touch [sessions]; and those three touch neither the catalog, nor the
    ratings, nor the image files. *)
Theorem route_frames (pwd_context : CryptContext)
    (session_token : option string) (salt : string) (random : N)
    (req : Request) (w : World) :
  (read_only_route req = true ->
   snd (handle pwd_context session_token salt random req w) = w)
  /\ (session_route req = false ->
      sessions (snd (handle pwd_context session_token salt random req w))
      = sessions w)
  /\ (session_route req = true ->
      products (db (snd (handle pwd_context session_token salt random req
                                w)))
      = products (db w)
      /\ ratings (db (snd (handle pwd_context session_token salt random req
                                  w)))
         = ratings (db w)
      /\ static_images
           (snd (handle pwd_context session_token salt random req w))
         = static_images w).
Proof.
  destruct req; cbv beta iota zeta delta [handle]; simpl;
    (split; [|split]); try discriminate; intros _;
    unfold_handlers; repeat case_match; simplify_eq; simpl;
    repeat split; reflexivity.
Qed.

(** ** Image files *)

(** X12: a delete by the owner removes the image file before it touches the
    row, so the file named by the product is gone afterwards in every case
    and no other file is touched; when the product has a rating the row
    stays (the store refuses the delete) and now names a missing file. *)
Theorem delete_product_image_file (user : User.t) (product_id : Z)
    (product : Product.t) (w : World) :
  owned_product product_id user (db w) = Some product ->
  static_images (snd (delete_product product_id (Some user) w))
    !! Product.image product = None
  /\ (forall other,
        other <> Product.image product ->
        static_images (snd (delete_product product_id (Some user) w))
          !! other
        = static_images w !! other)
  /\ (rating_count product_id (db w) <> 0%nat ->
      In product
         (products (db (snd (delete_product product_id (Some user) w))))).
Proof.
  intros Hown. pose proof (owned_product_some _ _ _ _ Hown) as (Hin & Hid & _).
  unfold delete_product, delete_product_row. rewrite Hown, Hid.
  unfold rating_count.
  assert (Hgone :
    (match static_images w !! Product.image product with
     | Some _ => delete (Product.image product) (static_images w)
     | None => static_images w
     end) !! Product.image product = None).
  { destruct (static_images w !! Product.image product) eqn:E;
      [apply lookup_delete_eq|exact E]. }
  assert (Hrest : forall other,
    other <> Product.image product ->
    (match static_images w !! Product.image product with
     | Some _ => delete (Product.image product) (static_images w)
     | None => static_images w
     end) !! other = static_images w !! other).
  { intros other Hne.
    destruct (static_images w !! Product.image product);
      [now apply lookup_delete_ne|reflexivity]. }
  destruct (product_ratings product_id (db w)) as [|r rs]; simpl.
  - split; [exact Hgone|]. split; [exact Hrest|]. intros H. now elim H.
  - split; [exact Hgone|]. split; [exact Hrest|]. intros _. exact Hin.
Qed.

(** Ana deletes the rated table: its image is gone, the row is not. *)
Lemma delete_product_image_file_witness :
  static_images (snd (delete_product 1 (Some ana) world_rated))
    !! Product.image mesa = None
  /\ static_images world_rated !! Product.image mesa = Some []
  /\ In mesa (products (db (snd (delete_product 1 (Some ana) world_rated)))).
Proof.
  destruct (delete_product_image_file ana 1 mesa world_rated)
    as (Hgone & _ & Hstays).
  - vm_compute. reflexivity.
  - split; [exact Hgone|]. split; [vm_compute; reflexivity|].
    apply Hstays. vm_compute. discriminate.
Defined.

Lemma edit_product_commit_images product_id product' images w :
  static_images (snd (edit_product_commit product_id product' images w))
  = images.
Proof. unfold edit_product_commit. now destruct (update_product _ _). Qed.

Lemma edit_product_commit_answer product_id product' images w :
  (exists e,
     fst (edit_product_commit product_id product' images w) = Uncaught e
     /\ db (snd (edit_product_commit product_id product' images w)) = db w)
  \/ fst (edit_product_commit product_id product' images w)
     = RedirectResponse ("/product/" +:+ pretty product_id) no_cookie.
Proof.
  unfold edit_product_commit.
  destruct (update_product _ _) as [e|s']; [left|right; reflexivity].
  exists e. split; reflexivity.
Qed.

(** X13: the files of an edit by the owner.  Without a named upload the
    files are left as they are.  With one, the file the product named before
    is removed in every case (unless the new name is that very name) and no
    other file changes; when the edit goes through, the upload's bytes are
    stored under the new name (the drawn identifier, an underscore, the
    upload's file name); when it does not (the new file cannot be opened,
    say for a slash in its name, or the commit raises), the row is what it
    was, so the product then names a file that is gone. *)
Theorem edit_product_image_files (user : User.t) (product_id : Z)
    (product : Product.t) (name description : string) (price : float)
    (stock : Z) (image : option UploadFile) (random : N) (w : World) :
  owned_product product_id user (db w) = Some product ->
  ((image = None \/ exists up, image = Some up /\ named up = false) ->
   static_images (snd (edit_product product_id name description price stock
                                    image random (Some user) w))
   = static_images w)
  /\ (forall c fn bytes,
        image = Some (mkUpload (Some (String c fn)) bytes) ->
        let new_name := str_uuid (uuid4 random) +:+ "_" +:+ String c fn in
        let answer := fst (edit_product product_id name description price
                                        stock image random (Some user) w) in
        let w' := snd (edit_product product_id name description price stock
                                    image random (Some user) w) in
        (Product.image product <> new_name ->
         static_images w' !! Product.image product = None)
        /\ (forall other,
              other <> new_name -> other <> Product.image product ->
              static_images w' !! other = static_images w !! other)
        /\ (answer
            = RedirectResponse ("/product/" +:+ pretty product_id) no_cookie ->
            static_images w' !! new_name = Some bytes)
        /\ (answer
            <> RedirectResponse ("/product/" +:+ pretty product_id)
                                no_cookie ->
            (exists e, answer = Uncaught e) /\ db w' = db w)).
Proof.
  intros Hown. unfold edit_product. rewrite Hown. split.
  - intros [->|(up & -> & Hup)]; [apply edit_product_commit_images|].
    destruct up as [[[|c fn]|] bytes]; try discriminate Hup;
      apply edit_product_commit_images.
  - intros c fn bytes ->. cbv zeta.
    set (removed := match static_images w !! Product.image product with
                    | Some _ =>
                        delete (Product.image product) (static_images w)
                    | None => static_images w
                    end).
    assert (Hold : removed !! Product.image product = None).
    { unfold removed.
      destruct (static_images w !! Product.image product) eqn:E;
        [apply lookup_delete_eq|exact E]. }
    assert (Hrest : forall other,
              other <> Product.image product ->
              removed !! other = static_images w !! other).
    { intros other Hne. unfold removed.
      destruct (static_images w !! Product.image product);
        [now apply lookup_delete_ne|reflexivity]. }
    destruct (open_wb _ bytes removed) as [e|images] eqn:Eo.
    + cbn [fst snd static_images db].
      split; [intros _; exact Hold|].
      split; [intros other _ Hne; now apply Hrest|].
      split; [discriminate|].
      intros _. split; [now exists e|reflexivity].
    + apply open_wb_inr in Eo as ->.
      rewrite edit_product_commit_images.
      split; [intros Hne; rewrite lookup_insert_ne; [exact Hold|congruence]|].
      split.
      { intros other Hnew Hne. rewrite lookup_insert_ne; [|congruence].
        now apply Hrest. }
      split; [intros _; apply lookup_insert_eq|].
      intros Hne.
      match goal with
      | |- context [edit_product_commit ?a ?b ?c ?d] =>
          destruct (edit_product_commit_answer a b c d) as [(e & He & Hdb)|He]
      end.
      * split; [now exists e|exact Hdb].
      * now elim Hne.
Qed.

(** Ana gives her table a new picture. *)
Lemma edit_product_image_files_witness :
  static_images
    (snd (edit_product 1 "mesa" "de pino" 10%float 5
                       (Some (mkUpload (Some "nueva.png") [Byte.x78])) 11
                       (Some ana) world_rated))
    !! "00000000-0000-4000-8000-00000000000b_nueva.png"
  = Some [Byte.x78].
Proof.
  destruct (edit_product_image_files ana 1 mesa "mesa" "de pino" 10%float 5
              (Some (mkUpload (Some "nueva.png") [Byte.x78])) 11 world_rated)
    as [_ H].
  - vm_compute. reflexivity.
  - destruct (H "n"%char "ueva.png" [Byte.x78] eq_refl) as (_ & _ & Hnew & _).
    apply Hnew. vm_compute. reflexivity.
Defined.

(** A picture with a slash in its name: the edit ends in the uncaught error
    of [open], the table's old picture is gone and the row still names it. *)
Example edit_product_slash :
  fst (edit_product 1 "mesa" "de pino" 10%float 5
                    (Some (mkUpload (Some "a/b.png") [Byte.x78])) 11
                    (Some ana) world_rated)
  = Uncaught
      (FileNotFoundError "00000000-0000-4000-8000-00000000000b_a/b.png")
  /\ static_images
       (snd (edit_product 1 "mesa" "de pino" 10%float 5
                          (Some (mkUpload (Some "a/b.png") [Byte.x78])) 11
                          (Some ana) world_rated))
     !! Product.image mesa = None
  /\ products
       (db (snd (edit_product 1 "mesa" "de pino" 10%float 5
                              (Some (mkUpload (Some "a/b.png") [Byte.x78]))
                              11 (Some ana) world_rated)))
     = [mesa].
Proof. repeat split; vm_compute; reflexivity. Qed.

(** ** Pages *)

Lemma product_by_id s product :
  product_ids_unique s -> In product (products s) ->
  first (fun p => Product.id p =? Product.id product) (products s)
  = Some product.
Proof.
  intros Hpk Hin. apply first_the_only; [|exact Hin|apply Z.eqb_refl].
  intros y Hy Hc. apply (NoDup_map_same Product.id (products s)); auto. lia.
Qed.

Lemma product_detail_page product viewer w :
  product_ids_unique (db w) -> In product (products (db w)) ->
  product_detail (Product.id product) viewer w
  = (TemplateResponse
       (product_detail_html product
          (rating_count (Product.id product) (db w))
          (match viewer with
           | Some user =>
               user_has_rated (User.id user) (Product.id product) (db w)
           | None => false
           end)
          viewer), w).
Proof.
  intros Hpk Hin. unfold product_detail.
  now rewrite (product_by_id _ _ Hpk Hin).
Qed.

(** X14: the page of a product.  It is a 404 exactly when no product has the
    id; with distinct product keys it shows the product with that id, the
    number of Rating rows that refer to it, and the flag "you rated this",
    which is set exactly for a logged-in viewer with a Rating row for the
    product; the page changes nothing. *)
Theorem product_detail_cases (product_id : Z) (viewer : option User.t)
    (w : World) :
  snd (product_detail product_id viewer w) = w
  /\ (fst (product_detail product_id viewer w)
      = HTTPException 404 "Producto no encontrado"
      <-> ~ product_exists product_id (db w))
  /\ (forall product,
        product_ids_unique (db w) ->
        In product (products (db w)) ->
        Product.id product = product_id ->
        exists has_rated,
          fst (product_detail product_id viewer w)
          = TemplateResponse
              (product_detail_html product (rating_count product_id (db w))
                                   has_rated viewer)
          /\ (has_rated = true
              <-> exists user,
                    viewer = Some user
                    /\ rated (User.id user) product_id (db w))).
Proof.
  split; [|split].
  - unfold product_detail. now destruct (first _ (products (db w))).
  - rewrite <- product_query_none. unfold product_detail.
    destruct (first _ (products (db w))); simpl; split;
      try discriminate; reflexivity.
  - intros product Hpk Hin <-. rewrite product_detail_page by assumption.
    eexists. split; [reflexivity|].
    destruct viewer as [user|].
    + rewrite user_has_rated_iff. split.
      * intros H. now exists user.
      * now intros (u & [= <-] & H).
    + split; [discriminate|]. now intros (u & Hu & _).
Qed.

(** X15: rating shows on the page.  With distinct product keys, a user who
    sees "not rated yet" and count n on a product's page and then rates the
    product sees "rated" and count n + 1 on the same page. *)
Theorem rate_then_view (user : User.t) (product : Product.t) (w : World) :
  product_ids_unique (db w) ->
  In product (products (db w)) ->
  ~ rated (User.id user) (Product.id product) (db w) ->
  fst (product_detail (Product.id product) (Some user) w)
  = TemplateResponse
      (product_detail_html product
         (rating_count (Product.id product) (db w)) false (Some user))
  /\ fst (product_detail (Product.id product) (Some user)
            (snd (rate_product (Product.id product) (Some user) w)))
     = TemplateResponse
         (product_detail_html product
            (S (rating_count (Product.id product) (db w))) true
            (Some user)).
Proof.
  intros Hpk Hin Hr. split.
  - rewrite product_detail_page by assumption. simpl.
    destruct (user_has_rated _ _ (db w)) eqn:E; [|reflexivity].
    apply user_has_rated_iff in E. tauto.
  - rewrite rate_product_fresh; [|now exists product|exact Hr].
    cbn [snd]. rewrite product_detail_page; [|exact Hpk|exact Hin].
    cbn [fst]. unfold with_rating. cbn [db]. rewrite rating_count_app.
    cbn [Rating.product_id]. rewrite Z.eqb_refl.
    assert (Hhas : user_has_rated (User.id user) (Product.id product)
                     (mkStore (users (db w)) (products (db w))
                        (ratings (db w)
                         ++ [Rating.mk (next_id (map Rating.id
                                                     (ratings (db w))))
                                       (User.id user) (Product.id product)]))
                   = true).
    { apply user_has_rated_iff. eexists.
      split; [apply in_or_app; right; left; reflexivity|].
      split; reflexivity. }
    rewrite Hhas. destruct (db w); simpl. do 3 f_equal. lia.
Qed.

(** Beto looks at the table, rates it, and looks again. *)
Lemma rate_then_view_witness :
  fst (product_detail 1 (Some beto)
         (snd (rate_product 1 (Some beto) world_beto)))
  = TemplateResponse (product_detail_html mesa 1 true (Some beto)).
Proof.
  destruct (rate_then_view beto mesa world_beto) as [_ H].
  - vm_compute. repeat constructor. simpl. tauto.
  - vm_compute. left. reflexivity.
  - intros (r & Hr & _). vm_compute in Hr. exact Hr.
  - exact H.
Defined.

Lemma no_rating_for_fresh_product s :
  references_hold s ->
  product_ratings (next_id (map Product.id (products s))) s = []
  /\ forall user_id,
       ~ rated user_id (next_id (map Product.id (products s))) s.
Proof.
  intros [Hr _].
  assert (Hno : forall r, In r (ratings s) ->
                  Rating.product_id r
                  <> next_id (map Product.id (products s))).
  { intros r Hin. destruct (Hr r Hin) as [_ (p & Hp & Hid)].
    assert (Product.id p < next_id (map Product.id (products s))); [|lia].
    apply next_id_above. now apply in_map. }
  split.
  - unfold product_ratings.
    destruct (List.filter _ (ratings s)) as [|r rs] eqn:E; [reflexivity|].
    assert (Hin : In r (List.filter
                          (fun r => Rating.product_id r
                                    =? next_id (map Product.id (products s)))
                          (ratings s))) by (rewrite E; now left).
    apply List.filter_In in Hin as [Hin Hc]. specialize (Hno r Hin). lia.
  - intros user_id (r & Hin & _ & Hid). now apply (Hno r Hin).
Qed.

(** X16: a new listing starts clean.  When the references of the tables hold
    (as they do in every reachable world) and a logged-in user's request to
    add a product goes through (the answer is the redirect to /), the
    product has been appended under the next key with the user as owner, its
    page shows it with count 0 and "not rated" for every viewer, and the
    index page lists it with count 0. *)
Theorem add_product_then_view (name description : string) (price : float)
    (stock : Z) (image : UploadFile) (random : N) (user : User.t)
    (w : World) :
  references_hold (db w) ->
  fst (add_product name description price stock image random (Some user) w)
  = RedirectResponse "/" no_cookie ->
  exists product,
    products (db (snd (add_product name description price stock image random
                                   (Some user) w)))
    = (products (db w) ++ [product])%list
    /\ Product.id product = next_id (map Product.id (products (db w)))
    /\ Product.owner_id product = User.id user
    /\ (forall viewer,
          fst (product_detail (Product.id product) viewer
                 (snd (add_product name description price stock image random
                                   (Some user) w)))
          = TemplateResponse (product_detail_html product 0 false viewer))
    /\ (forall viewer ranked,
          fst (read_products viewer
                 (snd (add_product name description price stock image random
                                   (Some user) w)))
          = TemplateResponse (index_html ranked viewer) ->
          In (product, 0%nat) ranked).
Proof.
  intros Href Hok. unfold add_product, add_product_row in *.
  destruct image as [[[|c fn]|] bytes]; cbn [filename file] in *;
    try discriminate Hok.
  destruct (open_wb _ bytes (static_images w)) as [e|images];
    [discriminate Hok|].
  destruct (integer_column stock); [|discriminate Hok].
  cbn [snd db products].
  destruct (no_rating_for_fresh_product (db w) Href) as [Hnone Hnot].
  set (product := Product.mk (next_id (map Product.id (products (db w))))
                             name description price stock
                             (str_uuid (uuid4 random) +:+ "_" +:+ String c fn)
                             (User.id user)).
  assert (Hcount : rating_count (Product.id product)
                     (mkStore (users (db w)) (products (db w) ++ [product])
                              (ratings (db w))) = 0%nat).
  { unfold rating_count, product_ratings in *. simpl. now rewrite Hnone. }
  exists product. split; [reflexivity|]. split; [reflexivity|].
  split; [reflexivity|]. split.
  - intros viewer. unfold product_detail. cbn [db products].
    rewrite (first_app_last _ (products (db w)) product).
    + cbn [fst]. rewrite Hcount. do 2 f_equal.
      destruct viewer as [v|]; [|reflexivity].
      destruct (user_has_rated _ _ _) eqn:E; [|reflexivity].
      apply user_has_rated_iff in E. exfalso.
      apply (Hnot (User.id v)). exact E.
    + intros q Hq.
      assert (Product.id q < next_id (map Product.id (products (db w))));
        [|simpl; lia].
      apply next_id_above. now apply in_map.
    + apply Z.eqb_refl.
  - intros viewer ranked. unfold read_products. cbn [fst db].
    intros [= <-].
    apply (Permutation_in _ (Permutation_sym (sort_reverse_perm snd _))).
    unfold products_with_ratings. cbn [products].
    rewrite map_app. apply in_or_app. right. left.
    now rewrite Hcount.
Qed.

(** Ana lists a chair in the world where her table is rated. *)
Lemma add_product_then_view_witness :
  exists product,
    Product.id product = 2
    /\ fst (product_detail 2 (Some beto)
              (snd (add_product "silla" "de pino" 4%float 2 mesa_png 8
                                (Some ana) world_rated)))
       = TemplateResponse (product_detail_html product 0 false (Some beto)).
Proof.
  destruct (add_product_then_view "silla" "de pino" 4%float 2 mesa_png 8 ana
                                  world_rated)
    as (product & _ & Hid & _ & Hpage & _).
  - split.
    + intros r Hr. vm_compute in Hr. destruct Hr as [<-|[]]. split.
      * exists beto. split; [vm_compute; right; left|]; reflexivity.
      * exists mesa. split; [vm_compute; left|]; reflexivity.
    + intros p Hp. vm_compute in Hp. destruct Hp as [<-|[]].
      exists ana. split; [vm_compute; left|]; reflexivity.
  - vm_compute. reflexivity.
  - assert (H2 : Product.id product = 2)
      by (rewrite Hid; vm_compute; reflexivity).
    exists product. split; [exact H2|].
    pose proof (Hpage (Some beto)) as H. rewrite H2 in H. exact H.
Defined.

(** X17: the page of a user.  It is a 404 exactly when no user has the id;
    with distinct user keys it shows the user with that id; the page changes
    nothing and does not depend on who asks. *)
Theorem user_detail_cases (user_id : Z) (viewer : option User.t)
    (w : World) :
  snd (user_detail user_id viewer w) = w
  /\ (fst (user_detail user_id viewer w)
      = HTTPException 404 "Usuario no encontrado"
      <-> ~ user_exists user_id (db w))
  /\ (forall user,
        users_unique (db w) -> In user (users (db w)) ->
        User.id user = user_id ->
        fst (user_detail user_id viewer w)
        = TemplateResponse (user_detail_html user viewer)).
Proof.
  unfold user_detail. split; [|split].
  - now destruct (first _ (users (db w))).
  - destruct (first _ (users (db w))) as [u|] eqn:E; simpl; split.
    + discriminate.
    + intros H. exfalso. apply H. apply first_some in E as [Hin Hid].
      exists u. split; [exact Hin|lia].
    + intros _ (u & Hin & Hid). rewrite first_none in E.
      specialize (E u Hin). simpl in E. lia.
    + reflexivity.
  - intros user Huniq Hin <-. now rewrite (user_by_id _ _ Huniq Hin).
Qed.

(** X18: the edit form and the edit agree on who may edit.  The form is
    rendered exactly for the requesters whom the edit does not turn away
    with the redirect to /login or with the 404; it then shows a product
    with the requested id that the requester owns, and the edit either goes
    through or ends in an uncaught error of the file system or the store.
    When the form is refused, the edit gives the very same answer.  Asking
    for the form changes nothing. *)
Theorem edit_form_agrees_with_edit (product_id : Z)
    (name description : string) (price : float) (stock : Z)
    (image : option UploadFile) (random : N)
    (current_user : option User.t) (w : World) :
  snd (edit_product_form product_id current_user w) = w
  /\ ((exists product,
         fst (edit_product_form product_id current_user w)
         = TemplateResponse (edit_product_html product current_user))
      <-> (fst (edit_product product_id name description price stock image
                             random current_user w)
           <> RedirectResponse "/login" no_cookie
           /\ fst (edit_product product_id name description price stock image
                                random current_user w)
              <> HTTPException 404
                   "Producto no encontrado o no tienes permiso para editarlo"))
  /\ ((exists product,
         fst (edit_product_form product_id current_user w)
         = TemplateResponse (edit_product_html product current_user)) ->
      fst (edit_product product_id name description price stock image random
                        current_user w)
      = RedirectResponse ("/product/" +:+ pretty product_id) no_cookie
      \/ exists e,
           fst (edit_product product_id name description price stock image
                             random current_user w) = Uncaught e)
  /\ (forall product,
        fst (edit_product_form product_id current_user w)
        = TemplateResponse (edit_product_html product current_user) ->
        In product (products (db w))
        /\ Product.id product = product_id
        /\ exists user,
             current_user = Some user
             /\ Product.owner_id product = User.id user)
  /\ ((forall product,
         fst (edit_product_form product_id current_user w)
         <> TemplateResponse (edit_product_html product current_user)) ->
      fst (edit_product_form product_id current_user w)
      = fst (edit_product product_id name description price stock image
                          random current_user w)).
Proof.
  unfold edit_product_form, edit_product.
  destruct current_user as [user|].
  - destruct (owned_product product_id user (db w)) as [product|] eqn:Hown.
    + assert (Hanswer :
        fst (match image with
             | Some (mkUpload (Some (String c fn)) bytes) =>
                 match open_wb (str_uuid (uuid4 random) +:+ "_"
                                +:+ String c fn) bytes
                         (match static_images w !! Product.image product with
                          | Some _ =>
                              delete (Product.image product) (static_images w)
                          | None => static_images w
                          end) with
                 | inl e =>
                     (Uncaught e,
                      mkWorld (db w) (sessions w)
                        (match static_images w !! Product.image product with
                         | Some _ =>
                             delete (Product.image product)
                                    (static_images w)
                         | None => static_images w
                         end))
                 | inr images =>
                     edit_product_commit product_id
                       (Product.mk (Product.id product) name description
                                   price stock
                                   (str_uuid (uuid4 random) +:+ "_"
                                    +:+ String c fn)
                                   (Product.owner_id product))
                       images w
                 end
             | _ =>
                 edit_product_commit product_id
                   (Product.mk (Product.id product) name description price
                               stock (Product.image product)
                               (Product.owner_id product))
                   (static_images w) w
             end)
        = RedirectResponse ("/product/" +:+ pretty product_id) no_cookie
        \/ exists e,
             fst (match image with
                  | Some (mkUpload (Some (String c fn)) bytes) =>
                      match open_wb (str_uuid (uuid4 random) +:+ "_"
                                     +:+ String c fn) bytes
                              (match static_images w
                                     !! Product.image product with
                               | Some _ =>
                                   delete (Product.image product)
                                          (static_images w)
                               | None => static_images w
                               end) with
                      | inl e =>
                          (Uncaught e,
                           mkWorld (db w) (sessions w)
                             (match static_images w
                                    !! Product.image product with
                              | Some _ =>
                                  delete (Product.image product)
                                         (static_images w)
                              | None => static_images w
                              end))
                      | inr images =>
                          edit_product_commit product_id
                            (Product.mk (Product.id product) name description
                                        price stock
                                        (str_uuid (uuid4 random) +:+ "_"
                                         +:+ String c fn)
                                        (Product.owner_id product))
                            images w
                      end
                  | _ =>
                      edit_product_commit product_id
                        (Product.mk (Product.id product) name description
                                    price stock (Product.image product)
                                    (Product.owner_id product))
                        (static_images w) w
                  end) = Uncaught e).
      { assert (Hc : forall p' images,
                  fst (edit_product_commit product_id p' images w)
                  = RedirectResponse ("/product/" +:+ pretty product_id)
                                     no_cookie
                  \/ exists e,
                       fst (edit_product_commit product_id p' images w)
                       = Uncaught e).
        { intros p' images.
          destruct (edit_product_commit_answer product_id p' images w)
            as [(e & He & _)|He]; [right; now exists e|now left]. }
        destruct image as [[[[|c fn]|] bytes]|]; try apply Hc.
        destruct (open_wb _ _ _) as [e|images]; [|apply Hc].
        right. now exists e. }
      cbn [fst snd]. split; [reflexivity|]. split; [|split; [|split]].
      * split; [intros _|intros _; now exists product].
        destruct Hanswer as [->|[e ->]]; split; discriminate.
      * intros _. exact Hanswer.
      * intros p [= <-]. apply owned_product_some in Hown as (H1 & H2 & H3).
        split; [exact H1|]. split; [exact H2|]. now exists user.
      * intros H. now elim (H product).
    + cbn [fst snd]. split; [reflexivity|]. split; [|split; [|split]].
      * split; [intros [p Hp]; discriminate Hp|intros [_ H]; now elim H].
      * intros [p Hp]. discriminate Hp.
      * intros p Hp. discriminate Hp.
      * reflexivity.
  - cbn [fst snd]. split; [reflexivity|]. split; [|split; [|split]].
    + split; [intros [p Hp]; discriminate Hp|intros [H _]; now elim H].
    + intros [p Hp]. discriminate Hp.
    + intros p Hp. discriminate Hp.
    + reflexivity.
Qed.

(** ** The index page *)

Lemma list_sum_perm (l l' : list nat) :
  Permutation l l' -> list_sum l = list_sum l'.
Proof. induction 1; simpl; lia. Qed.

Lemma list_sum_map_add {A : Type} (f g : A -> nat) (l : list A) :
  list_sum (map (fun x => (f x + g x)%nat) l)
  = (list_sum (map f l) + list_sum (map g l))%nat.
Proof. induction l as [|x l IH]; simpl; lia. Qed.

Lemma one_product_per_key (ps : list Product.t) (p : Product.t) :
  List.NoDup (map Product.id ps) -> In p ps ->
  list_sum (map (fun q => if Product.id p =? Product.id q then 1%nat
                          else 0%nat) ps) = 1%nat.
Proof.
  induction ps as [|q ps IH]; simpl; [tauto|].
  intros Hnd Hin. inversion Hnd as [|? ? Hq Hnd']; subst.
  destruct Hin as [->|Hin].
  - rewrite Z.eqb_refl.
    assert (Hzero : list_sum (map (fun q => if Product.id p =? Product.id q
                                            then 1%nat else 0%nat) ps)
                    = 0%nat).
    { clear IH Hnd Hnd'. induction ps as [|q ps IH]; simpl; [reflexivity|].
      destruct (Product.id p =? Product.id q) eqn:E.
      - exfalso. apply Hq. left. lia.
      - apply IH. intros H. apply Hq. now right. }
    lia.
  - destruct (Product.id p =? Product.id q) eqn:E.
    + exfalso. apply Hq. replace (Product.id q) with (Product.id p) by lia.
      now apply in_map.
    + now apply IH.
Qed.

Lemma counts_add_up (ps : list Product.t) (rs : list Rating.t) :
  List.NoDup (map Product.id ps) ->
  (forall r, In r rs ->
             exists p, In p ps /\ Product.id p = Rating.product_id r) ->
  list_sum (map (fun p =>
                   length (List.filter
                             (fun r => Rating.product_id r =? Product.id p)
                             rs)) ps)
  = length rs.
Proof.
  intros Hnd. induction rs as [|r rs IH]; intros Href.
  - simpl. induction ps as [|p ps IHp]; simpl; [reflexivity|].
    inversion Hnd; subst. now apply IHp.
  - destruct (Href r (or_introl eq_refl)) as (p & Hp & Hid).
    rewrite (map_ext _
               (fun q => ((if Z.eqb (Product.id p) (Product.id q)
                           then 1 else 0)
                          + length (List.filter
                                      (fun r => Z.eqb (Rating.product_id r)
                                                      (Product.id q))
                                      rs))%nat)).
    + rewrite list_sum_map_add, one_product_per_key by assumption.
      rewrite IH; [reflexivity|]. intros r' Hr'. apply Href. now right.
    + intros q. simpl. rewrite <- Hid.
      now destruct (Product.id p =? Product.id q).
Qed.

(** X19: the index page accounts for the catalog and the ledger.  It lists
    exactly the products of the catalog, each once and each with the number
    of Rating rows that refer to it; no listed product has a larger count
    than the first one; and when product keys are distinct and ratings refer
    to existing products (as in every reachable world), the counts on the
    page add up to the number of Rating rows. *)
Theorem index_page_accounts (viewer : option User.t) (w : World) :
  exists ranked,
    fst (read_products viewer w) = TemplateResponse (index_html ranked viewer)
    /\ Permutation (map fst ranked) (products (db w))
    /\ (forall p n, In (p, n) ranked ->
                    n = rating_count (Product.id p) (db w))
    /\ (forall p n rest,
          ranked = (p, n) :: rest ->
          forall q m, In (q, m) ranked -> (m <= n)%nat)
    /\ (product_ids_unique (db w) -> references_hold (db w) ->
        list_sum (map snd ranked) = length (ratings (db w))).
Proof.
  exists (sort_reverse snd (products_with_ratings (db w))).
  pose proof (sort_reverse_perm snd (products_with_ratings (db w))) as Hperm.
  split; [reflexivity|]. split; [|split; [|split]].
  - rewrite (Permutation_map fst Hperm).
    unfold products_with_ratings. rewrite map_map. simpl.
    now rewrite map_id.
  - intros p n Hin. apply (Permutation_in _ Hperm) in Hin.
    unfold products_with_ratings in Hin.
    apply in_map_iff in Hin as (q & [= <- <-] & _). reflexivity.
  - intros p n rest Heq q m Hin.
    pose proof (sort_reverse_descending snd (products_with_ratings (db w)))
      as Hsorted.
    unfold descending in Hsorted. rewrite Heq in Hsorted, Hin.
    inversion Hsorted as [|? ? _ Hall]; subst.
    destruct Hin as [[= <- <-]|Hin]; [lia|].
    rewrite List.Forall_forall in Hall. exact (Hall (q, m) Hin).
  - intros Hpk [Href _].
    rewrite (list_sum_perm _ _ (Permutation_map snd Hperm)).
    unfold products_with_ratings. rewrite map_map. simpl.
    apply counts_add_up; [exact Hpk|].
    intros r Hr. destruct (Href r Hr) as [_ (p & Hp & Hid)].
    now exists p.
Qed.


Example run_add_product_slash :
  add_product "silla" "de pino" 4%float 2
              (mkUpload (Some "../x.png") [Byte.x78]) 8 (Some ana)
              world_rated
  = (Uncaught
       (FileNotFoundError "00000000-0000-4000-8000-000000000008_../x.png"),
     world_rated).
Proof. vm_compute. reflexivity. Qed.

Example run_add_product_stock_too_large :
  fst (add_product "silla" "de pino" 4%float (2 ^ 63) mesa_png 8 (Some ana)
                   world_rated)
  = Uncaught
      (OverflowError "Python int too large to convert to SQLite INTEGER")
  /\ products
       (db (snd (add_product "silla" "de pino" 4%float (2 ^ 63) mesa_png 8
                             (Some ana) world_rated)))
     = [mesa]
  /\ static_images
       (snd (add_product "silla" "de pino" 4%float (2 ^ 63) mesa_png 8
                         (Some ana) world_rated))
     !! "00000000-0000-4000-8000-000000000008_mesa.png" = Some [].
Proof. repeat split; vm_compute; reflexivity. Qed.
